(** * Combat timeline, hit resolution and boss encounter of hollow-platformer

    A shallow embedding of
      - src/systems/combat_feel.py          (CombatFeelEnhancer)
      - src/systems/hollow_knight_combat.py (HollowKnightCombat)
      - src/systems/combat_system.py        (ScreenShake, HitFreeze, MeleeAttack)
      - src/entities/enemies/base_boss.py   (AttackPattern, BossPhase, BaseBoss)
    and of the two places that drive them (Player.update, Game.update),
    followed by the properties of the combat core proved on it.

    Python [int] is [Z]; Python [float] is the kernel's binary64 [float],
    so arithmetic rounds exactly as CPython's does.  Objects are records
    and a method is a function from the object's state to its new state
    (with the returned value, when there is one).  A method that can
    raise after it has assigned gives the state together with a
    [Py.result]: what was assigned before the raise stays assigned. *)

From Stdlib Require Import ZArith Floats.
From stdpp Require Import base gmap sets list strings.

Set Warnings "-inexact-float".
Open Scope Z_scope.

(** Sequential assignment: [s |> f |> g] applies [f], then [g]. *)
Notation "s |> f" := (f s) (at level 45, left associativity, only parsing).

(** Record update [proj := v]: [eta] is the record rebuilt from its own
    projections; abstracting the projection gives the setter. *)
Ltac build_setter eta proj :=
  let e := eval cbv delta [eta] in eta in
  lazymatch eval pattern proj in e with
  | ?g _ => let s := eval cbv beta in (fun v r => g (fun _ => v) r) in exact s
  end.

(** ** Python numbers *)
Module Py.

(** [float(n)] for an [int]; exact for [|n| < 2^53]. *)
Definition float_of_int (n : Z) : float :=
  if n <? 0 then PrimFloat.opp (PrimFloat.of_uint63 (Uint63.of_Z (- n)))
  else PrimFloat.of_uint63 (Uint63.of_Z n).

(** The integer part of a finite float, rounding toward zero. *)
Definition trunc (f : float) : Z :=
  match Prim2SF f with
  | S754_finite s m e =>
      let a := Z.shiftl (Z.pos m) e in if s then - a else a
  | _ => 0
  end.

Inductive exn :=
  ZeroDivisionError | ValueError | OverflowError | TypeError | AttributeError.

Inductive result (A : Type) :=
| Ok (a : A)
| Raise (e : exn).
Arguments Ok {A} a.
Arguments Raise {A} e.

Definition bind {A B} (r : result A) (k : A -> result B) : result B :=
  match r with
  | Ok a => k a
  | Raise e => Raise e
  end.

(** [int(f)]: raises on nan and on the infinities. *)
Definition int (f : float) : result Z :=
  if PrimFloat.is_nan f then Raise ValueError
  else if PrimFloat.is_infinity f then Raise OverflowError
  else Ok (trunc f).

(** [a / b] when one of the two is a float. *)
Definition truediv (a b : float) : result float :=
  if PrimFloat.eqb b 0 then Raise ZeroDivisionError else Ok (a / b)%float.

(** [a / b] on two ints: the quotient as a float. *)
Definition int_truediv (a b : Z) : result float :=
  if b =? 0 then Raise ZeroDivisionError
  else Ok (float_of_int a / float_of_int b)%float.

(** [max(a, b)] and [min(a, b)]: the first argument unless the second
    is strictly better. *)
Definition fmax (a b : float) : float := if PrimFloat.ltb a b then b else a.
Definition fmin (a b : float) : float := if PrimFloat.ltb b a then b else a.

(** [abs(f)]. *)
Definition fabs (f : float) : float := PrimFloat.abs f.

(** [a // b] on finite floats with [b] not zero: the floor of the
    quotient, as a float. *)
Definition ffloordiv (a b : float) : float :=
  let q := (a / b)%float in
  let n := trunc q in
  if PrimFloat.ltb q (float_of_int n) then float_of_int (n - 1)
  else float_of_int n.

End Py.

(** [let! x := c in k] runs [c] and, unless it raises, continues with [k]. *)
Notation "'let!' x := c 'in' k" := (Py.bind c (fun x => k))
  (at level 10, x name, c at level 100, k at level 200, only parsing).

(** ** The [math] module

    [math.atan2], [math.cos] and [math.sin] come from the C library; the
    development is parametric in them. *)
Class PyMath := {
  math_atan2 : float -> float -> float;
  math_cos : float -> float;
  math_sin : float -> float;
}.

Module math.
Definition pi : float := 0x1.921fb54442d18p+1%float.
(** [math.degrees(x)] is [x * (180 / pi)]. *)
Definition degrees (x : float) : float := (x * (180 / pi))%float.
(** [math.radians(x)] is [x * (pi / 180)]. *)
Definition radians (x : float) : float := (x * (pi / 180))%float.
Definition sqrt (x : float) : float := PrimFloat.sqrt x.
End math.

(** ** pygame.Rect

    Integer rectangles.  [Rect_of] is the constructor on Python numbers:
    pygame keeps the integer part of each argument. *)
Module pygame.

Record Rect := mkRect { x : Z; y : Z; w : Z; h : Z }.

Definition Rect_of (fx fy fw fh : float) : Rect :=
  mkRect (Py.trunc fx) (Py.trunc fy) (Py.trunc fw) (Py.trunc fh).

Definition left (r : Rect) : Z := x r.
Definition top (r : Rect) : Z := y r.
Definition right (r : Rect) : Z := x r + w r.
Definition bottom (r : Rect) : Z := y r + h r.
Definition centerx (r : Rect) : Z := x r + Z.quot (w r) 2.
Definition centery (r : Rect) : Z := y r + Z.quot (h r) 2.

(** [bool(rect)]: a rectangle with an empty side is falsy. *)
Definition truthy (r : Rect) : bool :=
  negb (w r =? 0) && negb (h r =? 0).

(** [a.colliderect(b)]: empty rectangles collide with nothing. *)
Definition colliderect (a b : Rect) : bool :=
  truthy a && truthy b
  && (Z.min (x a) (x a + w a) <? Z.max (x b) (x b + w b))
  && (Z.min (y a) (y a + h a) <? Z.max (y b) (y b + h b))
  && (Z.min (x b) (x b + w b) <? Z.max (x a) (x a + w a))
  && (Z.min (y b) (y b + h b) <? Z.max (y a) (y a + h a)).

(** [rect.bottom = v]. *)
Definition set_bottom (v : Z) (r : Rect) : Rect :=
  mkRect (x r) (v - h r) (w r) (h r).

(** [rect.x += dx; rect.y += dy]. *)
Definition move_ip (dx dy : Z) (r : Rect) : Rect :=
  mkRect (x r + dx) (y r + dy) (w r) (h r).

End pygame.

(** ** combat_feel.py *)
Module CombatFeelEnhancer.

Record t := mk {
  hit_pause_duration : Z;
  hit_pause_timer : Z;
  shake_intensity : Z;
  shake_duration : Z;
  shake_timer : Z;
  attack_lock_timer : Z;
  combo_window : Z;
  combo_timer : Z;
  combo_count : Z;
  max_combo : Z;
  can_cancel : bool;
  cancel_window_start : Z;
}.

Definition eta (r : t) : t :=
  mk (hit_pause_duration r) (hit_pause_timer r) (shake_intensity r)
     (shake_duration r) (shake_timer r) (attack_lock_timer r)
     (combo_window r) (combo_timer r) (combo_count r) (max_combo r)
     (can_cancel r) (cancel_window_start r).

Definition set_hit_pause_duration : Z -> t -> t := ltac:(build_setter eta hit_pause_duration).
Definition set_hit_pause_timer : Z -> t -> t := ltac:(build_setter eta hit_pause_timer).
Definition set_shake_intensity : Z -> t -> t := ltac:(build_setter eta shake_intensity).
Definition set_shake_duration : Z -> t -> t := ltac:(build_setter eta shake_duration).
Definition set_shake_timer : Z -> t -> t := ltac:(build_setter eta shake_timer).
Definition set_attack_lock_timer : Z -> t -> t := ltac:(build_setter eta attack_lock_timer).
Definition set_combo_timer : Z -> t -> t := ltac:(build_setter eta combo_timer).
Definition set_combo_count : Z -> t -> t := ltac:(build_setter eta combo_count).

(** [__init__] *)
Definition init : t :=
  {| hit_pause_duration := 0; hit_pause_timer := 0;
     shake_intensity := 0; shake_duration := 0; shake_timer := 0;
     attack_lock_timer := 0;
     combo_window := 30; combo_timer := 0; combo_count := 0; max_combo := 4;
     can_cancel := false; cancel_window_start := 5 |}.

Definition trigger_hit_pause (intensity : Z) (s : t) : t :=
  s |> set_hit_pause_duration intensity |> set_hit_pause_timer intensity.

Definition trigger_screen_shake (intensity duration : Z) (s : t) : t :=
  let s := set_shake_intensity (Z.max (shake_intensity s) intensity) s in
  let s := set_shake_duration (Z.max (shake_duration s) duration) s in
  set_shake_timer (shake_duration s) s.

(** [update]: the returned flag tells the caller to pause the game
    update. *)
Definition update (s : t) : bool * t :=
  if 0 <? hit_pause_timer s then
    (true, set_hit_pause_timer (hit_pause_timer s - 1) s)
  else
    let s := if 0 <? shake_timer s
             then set_shake_timer (shake_timer s - 1) s else s in
    let s := if 0 <? attack_lock_timer s
             then set_attack_lock_timer (attack_lock_timer s - 1) s else s in
    let s := if 0 <? combo_timer s
             then set_combo_timer (combo_timer s - 1) s
             else set_combo_count 0 s in
    (false, s).

Definition is_attack_locked (s : t) : bool := 0 <? attack_lock_timer s.

Definition start_attack_lock (duration : Z) (s : t) : t :=
  set_attack_lock_timer duration s.

Definition register_hit (is_heavy : bool) (s : t) : t :=
  let s := if is_heavy
           then s |> trigger_hit_pause 5 |> trigger_screen_shake 8 12
           else s |> trigger_hit_pause 2 |> trigger_screen_shake 4 6 in
  let s := if (0 <? combo_timer s) && (combo_count s <? max_combo s)
           then set_combo_count (combo_count s + 1) s
           else set_combo_count 1 s in
  set_combo_timer (combo_window s) s.

End CombatFeelEnhancer.


(** ** world/particles.py: the signature of [Particle.__init__] *)
Module Particle.

(** [def __init__(self, x, y, velocity_x, velocity_y, color, lifetime=30,
    size=3, particle_type='dust')]: the parameters after [self], and how
    many of them have no default.  There is no [*args] and no [**kwargs]. *)
Definition parameters : list string :=
  ["x"; "y"; "velocity_x"; "velocity_y"; "color"; "lifetime"; "size"; "particle_type"].
Definition required : nat := 5.

(** Binding the arguments of a call [Particle(a1, ..., an, k1=..., ...)]:
    TypeError when there are too many positional arguments, when a keyword
    is no parameter or names a parameter already given by position, or
    when a parameter without default is given neither way. *)
Definition bind_arguments (positional : nat) (keywords : list string) : Py.result unit :=
  if bool_decide (positional <= length parameters)%nat
     && forallb (fun k => bool_decide (k ∈ drop positional parameters)) keywords
     && forallb (fun p => bool_decide (p ∈ keywords))
          (drop positional (take required parameters))
  then Py.Ok tt
  else Py.Raise Py.TypeError.

End Particle.

(** ** systems/player_stats.py: the names a [PlayerStats] has *)
Module PlayerStats.

(** The attributes [__init__] assigns (no other method adds one). *)
Definition fields : list string :=
  ["strength"; "dexterity"; "intelligence"; "vitality"; "level"; "current_xp";
   "xp_to_next_level"; "attribute_points"; "skill_points"; "max_health";
   "current_health"; "health_regen"; "max_mana"; "current_mana"; "mana_regen";
   "max_stamina"; "current_stamina"; "stamina_regen"; "stamina_regen_delay";
   "stamina_regen_delay_max"; "base_damage"; "attack_damage"; "attack_speed";
   "critical_chance"; "critical_multiplier"; "defense"; "armor"; "dodge_chance";
   "elemental_resistance"; "movement_speed"; "carry_weight"; "item_rarity"].

(** The methods the class defines; it has no [__getattr__]. *)
Definition methods : list string :=
  ["__init__"; "calculate_xp_for_level"; "add_xp"; "level_up"; "add_attribute_point";
   "recalculate_stats"; "roll_critical"; "take_damage"; "heal"; "restore_mana";
   "use_mana"; "use_stamina"; "restore_stamina"; "update_stamina"; "is_exhausted";
   "can_afford_stamina"; "update"; "is_alive"; "get_xp_progress_percent";
   "get_stat_summary"; "save_data"; "load_data"].

(** [stats.<name>]: AttributeError unless the name is one of the above. *)
Definition getattr (name : string) : Py.result unit :=
  if bool_decide (name ∈ fields ++ methods) then Py.Ok tt
  else Py.Raise Py.AttributeError.

End PlayerStats.

(** ** entities/player/player.py (the part the combat reads and writes) *)
Module Player.

Record t := mk {
  rect : pygame.Rect;
  facing_right : bool;
  on_ground : bool;
  velocity_x : float;
  combat_feel : CombatFeelEnhancer.t;
}.

Definition eta (r : t) : t :=
  mk (rect r) (facing_right r) (on_ground r) (velocity_x r) (combat_feel r).

Definition set_velocity_x : float -> t -> t := ltac:(build_setter eta velocity_x).
Definition set_combat_feel : CombatFeelEnhancer.t -> t -> t := ltac:(build_setter eta combat_feel).

End Player.

(** An enemy as the hit check sees it: its identity and its rectangle. *)
Record Enemy := mkEnemy { enemy_id : Z; enemy_rect : pygame.Rect }.

(** ** systems/hollow_knight_combat.py *)
Module HollowKnightCombat.

Inductive AttackType := LIGHT | HEAVY | UPWARD.
Inductive AttackPhase := NONE | WINDUP | ACTIVE | RECOVERY.

#[global] Instance AttackType_eq_dec : EqDecision AttackType.
Proof. solve_decision. Defined.
#[global] Instance AttackPhase_eq_dec : EqDecision AttackPhase.
Proof. solve_decision. Defined.

(** The timing dictionaries, keys ['windup'], ['active'], ['recovery']. *)
Record Timings := mkTimings { windup : Z; active : Z; recovery : Z }.

Record t := mk {
  player : Player.t;
  is_attacking : bool;
  attack_type : option AttackType;
  attack_phase : AttackPhase;
  attack_timer : Z;
  attack_frame : Z;
  combo_count : Z;
  combo_timer : Z;
  combo_window : Z;
  next_attack_queued : bool;
  light_timings : Timings;
  heavy_timings : Timings;
  upward_timings : Timings;
  attack_range : Z;
  attack_arc : Z;
  hit_enemies : gset Z;
}.

Definition eta (r : t) : t :=
  mk (player r) (is_attacking r) (attack_type r) (attack_phase r)
     (attack_timer r) (attack_frame r) (combo_count r) (combo_timer r)
     (combo_window r) (next_attack_queued r) (light_timings r)
     (heavy_timings r) (upward_timings r) (attack_range r) (attack_arc r)
     (hit_enemies r).

Definition set_player : Player.t -> t -> t := ltac:(build_setter eta player).
Definition set_is_attacking : bool -> t -> t := ltac:(build_setter eta is_attacking).
Definition set_attack_type : option AttackType -> t -> t := ltac:(build_setter eta attack_type).
Definition set_attack_phase : AttackPhase -> t -> t := ltac:(build_setter eta attack_phase).
Definition set_attack_timer : Z -> t -> t := ltac:(build_setter eta attack_timer).
Definition set_attack_frame : Z -> t -> t := ltac:(build_setter eta attack_frame).
Definition set_combo_count : Z -> t -> t := ltac:(build_setter eta combo_count).
Definition set_combo_timer : Z -> t -> t := ltac:(build_setter eta combo_timer).
Definition set_next_attack_queued : bool -> t -> t := ltac:(build_setter eta next_attack_queued).
Definition set_hit_enemies : gset Z -> t -> t := ltac:(build_setter eta hit_enemies).

(** [__init__]; [slash_particles] never leaves the empty list it starts
    as (see [_spawn_slash_particles]) and is left out. *)
Definition init (p : Player.t) : t :=
  {| player := p;
     is_attacking := false; attack_type := None; attack_phase := NONE;
     attack_timer := 0; attack_frame := 0;
     combo_count := 0; combo_timer := 0; combo_window := 15;
     next_attack_queued := false;
     light_timings := mkTimings 4 8 10;
     heavy_timings := mkTimings 8 12 18;
     upward_timings := mkTimings 5 10 12;
     attack_range := 45; attack_arc := 120;
     hit_enemies := ∅ |}.

Definition get_windup_duration (c : t) : Z :=
  match attack_type c with
  | Some LIGHT => windup (light_timings c)
  | Some HEAVY => windup (heavy_timings c)
  | Some UPWARD => windup (upward_timings c)
  | None => 4
  end.

Definition get_active_duration (c : t) : Z :=
  match attack_type c with
  | Some LIGHT => active (light_timings c)
  | Some HEAVY => active (heavy_timings c)
  | Some UPWARD => active (upward_timings c)
  | None => 8
  end.

Definition get_recovery_duration (c : t) : Z :=
  match attack_type c with
  | Some LIGHT => recovery (light_timings c)
  | Some HEAVY => recovery (heavy_timings c)
  | Some UPWARD => recovery (upward_timings c)
  | None => 10
  end.

Definition get_total_duration (c : t) : Z :=
  get_windup_duration c + get_active_duration c + get_recovery_duration c.

(** [_start_attack] *)
Definition _start_attack (c : t) : t :=
  let c := c |> set_is_attacking true |> set_attack_phase WINDUP
             |> set_attack_timer 0 |> set_attack_frame 0
             |> set_hit_enemies ∅ in
  let c := if 0 <? combo_timer c
           then set_combo_count (Z.min (combo_count c + 1) 2) c
           else set_combo_count 0 c in
  let c := set_combo_timer (combo_window c) c in
  let c :=
    if Player.on_ground (player c) then
      let momentum : float :=
        (if bool_decide (attack_type c = Some LIGHT) then 2.5 else 2.0)%float in
      let p := player c in
      if Player.facing_right p
      then set_player (Player.set_velocity_x (Py.fmax (Player.velocity_x p) momentum) p) c
      else set_player (Player.set_velocity_x (Py.fmin (Player.velocity_x p) (- momentum)%float) p) c
    else c in
  let windup_duration := get_windup_duration c in
  let p := player c in
  set_player
    (Player.set_combat_feel
       (CombatFeelEnhancer.start_attack_lock windup_duration (Player.combat_feel p)) p) c.

(** [try_attack(attack_type='light', is_up_attack=False)] *)
Definition try_attack (attack_type_arg : string) (is_up_attack : bool) (c : t) : bool * t :=
  if is_attacking c then
    if bool_decide (attack_phase c = ACTIVE)
       && (Py.float_of_int (get_active_duration c) * 0.6 <? Py.float_of_int (attack_timer c))%float
    then (false, set_next_attack_queued true c)
    else if bool_decide (attack_phase c = RECOVERY)
    then (false, set_next_attack_queued true c)
    else (false, c)
  else
    let c :=
      if is_up_attack then set_attack_type (Some UPWARD) c
      else if String.eqb attack_type_arg "heavy" then set_attack_type (Some HEAVY) c
      else set_attack_type (Some LIGHT) c in
    (true, _start_attack c).

(** [_spawn_slash_particles]: for each [i] in [range(num_particles)] the
    position and the velocity of a particle are computed, the particle is
    built by [Particle(px, py, vx, vy, color=color, lifetime=12, size=4,
    fade=True)] and appended to [slash_particles].  The numbers do not
    decide whether the call binds; the model keeps the binding. *)
Definition _spawn_slash_particles (c : t) : Py.result unit :=
  let num_particles := 8%nat in
  foldl
    (fun done (i : nat) =>
       let! _ := done in
       Particle.bind_arguments 4 ["color"; "lifetime"; "size"; "fade"])
    (Py.Ok tt) (seq 0 num_particles).

(** [_enter_active_phase]: the phase is assigned before the particles are
    spawned.  The player has no [audio_manager], so no sound is played. *)
Definition _enter_active_phase (c : t) : Py.result unit * t :=
  let c := set_attack_phase ACTIVE c in
  (_spawn_slash_particles c, c).

Definition _enter_recovery_phase (c : t) : t := set_attack_phase RECOVERY c.

Definition _end_attack (c : t) : t :=
  if next_attack_queued c && (combo_count c <? 2) then
    c |> set_next_attack_queued false |> _start_attack
  else
    c |> set_is_attacking false |> set_attack_phase NONE
      |> set_attack_timer 0 |> set_attack_frame 0
      |> set_next_attack_queued false.

(** [update]: the combat after the call, with [Py.Ok tt] when the call
    returns and the exception when it raises. *)
Definition update (c : t) : Py.result unit * t :=
  let c :=
    if 0 <? combo_timer c then
      let c := set_combo_timer (combo_timer c - 1) c in
      if combo_timer c =? 0 then set_combo_count 0 c else c
    else c in
  if negb (is_attacking c) then (Py.Ok tt, c)
  else
    let c := set_attack_timer (attack_timer c + 1) c in
    match attack_phase c with
    | WINDUP =>
        if get_windup_duration c <=? attack_timer c
        then _enter_active_phase c else (Py.Ok tt, c)
    | ACTIVE =>
        if get_windup_duration c + get_active_duration c <=? attack_timer c
        then (Py.Ok tt, _enter_recovery_phase c) else (Py.Ok tt, c)
    | RECOVERY =>
        if get_total_duration c <=? attack_timer c
        then (Py.Ok tt, _end_attack c) else (Py.Ok tt, c)
    | NONE => (Py.Ok tt, c)
    end.

(** [get_attack_progress] *)
Definition get_attack_progress (c : t) : Py.result float :=
  if negb (is_attacking c) then Py.Ok 0%float
  else
    let! q := Py.int_truediv (attack_timer c) (get_total_duration c) in
    Py.Ok (Py.fmin q 1).

(** [get_hitbox]: [None] unless the phase is active. *)
Definition get_hitbox (c : t) : option pygame.Rect :=
  if bool_decide (attack_phase c ≠ ACTIVE) then None
  else
    let center_x := pygame.centerx (Player.rect (player c)) in
    let center_y := pygame.centery (Player.rect (player c)) in
    if bool_decide (attack_type c = Some UPWARD) then
      Some (pygame.mkRect (center_x - attack_range c `div` 2)
                          (center_y - attack_range c)
                          (attack_range c) (attack_range c))
    else if Player.facing_right (player c) then
      Some (pygame.mkRect center_x
                          (center_y - attack_range c `div` 2)
                          (attack_range c) (attack_range c))
    else
      Some (pygame.mkRect (center_x - attack_range c)
                          (center_y - attack_range c `div` 2)
                          (attack_range c) (attack_range c)).

Section WithMath.
Context `{PyMath}.

(** [_is_in_attack_arc] *)
Definition _is_in_attack_arc (enemy : Enemy) (c : t) : bool :=
  let dx := pygame.centerx (enemy_rect enemy) - pygame.centerx (Player.rect (player c)) in
  let dy := pygame.centery (enemy_rect enemy) - pygame.centery (Player.rect (player c)) in
  let angle := math.degrees (math_atan2 (Py.float_of_int dy) (Py.float_of_int dx)) in
  let angle := if (angle <? 0)%float then (angle + 360)%float else angle in
  let target_angle : float :=
    (if bool_decide (attack_type c = Some UPWARD) then 270
     else if Player.facing_right (player c) then 0
     else 180)%float in
  let angle_diff := Py.fabs (angle - target_angle) in
  let angle_diff := if (180 <? angle_diff)%float then (360 - angle_diff)%float else angle_diff in
  (angle_diff <=? Py.float_of_int (attack_arc c) / 2)%float.

(** [check_hit(enemy)]: the flag says whether the enemy is hit now. *)
Definition check_hit (enemy : Enemy) (c : t) : bool * t :=
  if negb (is_attacking c) || bool_decide (attack_phase c ≠ ACTIVE) then (false, c)
  else if bool_decide (enemy_id enemy ∈ hit_enemies c) then (false, c)
  else
    match get_hitbox c with
    | Some hitbox =>
        if pygame.truthy hitbox && pygame.colliderect hitbox (enemy_rect enemy) then
          if _is_in_attack_arc enemy c then
            let c := set_hit_enemies (hit_enemies c ∪ {[ enemy_id enemy ]}) c in
            let is_heavy := bool_decide (attack_type c = Some HEAVY) in
            let p := player c in
            (true,
             set_player
               (Player.set_combat_feel
                  (CombatFeelEnhancer.register_hit is_heavy (Player.combat_feel p)) p) c)
          else (false, c)
        else (false, c)
    | None => (false, c)
    end.
End WithMath.

(** [get_damage]: [base_damage = self.player.stats.get_stat('attack')]
    first looks the name [get_stat] up on the player's [PlayerStats];
    the argument [get_stat] stands for what the bound method would answer. *)
Definition get_damage (get_stat : string -> float) (c : t) : Py.result float :=
  let! _ := PlayerStats.getattr "get_stat" in
  let base_damage := get_stat "attack" in
  Py.Ok match attack_type c with
        | Some LIGHT => (base_damage * 1.0)%float
        | Some HEAVY => (base_damage * 1.8)%float
        | Some UPWARD => (base_damage * 1.2)%float
        | None => base_damage
        end.

End HollowKnightCombat.

(** ** systems/combat_system.py *)

(** [random.randint] is drawn by the caller: [update] takes the two
    offsets that the generator returns. *)
Module ScreenShake.

Record t := mk {
  shake_amount : Z;
  shake_duration : Z;
  shake_offset_x : Z;
  shake_offset_y : Z;
}.

Definition init : t := mk 0 0 0 0.

Definition add_shake (intensity duration : Z) (s : t) : t :=
  mk (Z.max (shake_amount s) intensity) (Z.max (shake_duration s) duration)
     (shake_offset_x s) (shake_offset_y s).

Definition update (rand_x rand_y : Z) (s : t) : t :=
  if 0 <? shake_duration s then
    mk (Z.max 0 (shake_amount s - 1)) (shake_duration s - 1) rand_x rand_y
  else
    mk (shake_amount s) (shake_duration s) 0 0.

Definition get_offset (s : t) : Z * Z := (shake_offset_x s, shake_offset_y s).

End ScreenShake.

Module HitFreeze.

Record t := mk { freeze_frames : Z; max_freeze : Z }.

Definition init : t := mk 0 0.

Definition add_freeze (frames : Z) (s : t) : t :=
  let f := Z.max (freeze_frames s) frames in mk f f.

Definition is_frozen (s : t) : bool := 0 <? freeze_frames s.

Definition update (s : t) : t :=
  if 0 <? freeze_frames s then mk (freeze_frames s - 1) (max_freeze s) else s.

End HitFreeze.

Module MeleeAttack.

(** [AttackPhases] *)
Inductive AttackPhases := WINDUP | ACTIVE | RECOVERY | NONE.

#[global] Instance AttackPhases_eq_dec : EqDecision AttackPhases.
Proof. solve_decision. Defined.

(** What the attack reads of its player: the rectangle and the stats. *)
Record PlayerView := mkPlayer {
  rect : pygame.Rect;
  attack_speed : float;
  attack_damage : float;
  critical_chance : float;
  critical_multiplier : float;
}.

(** The calls [check_hit_enemy] makes on the enemy it hits. *)
Inductive EnemyCall :=
| take_damage (damage : Z)
| apply_knockback (kb_x kb_y : float)
| apply_hitstun (frames : Z).

Record t := mk {
  player : PlayerView;
  is_attacking : bool;
  attack_frame : Z;
  attack_phase : AttackPhases;
  windup_frames : Z;
  active_frames : Z;
  recovery_frames : Z;
  total_frames : Z;
  attack_cooldown : float;
  attack_cooldown_max : Z;
  combo_count : Z;
  max_combo : Z;
  combo_timer : Z;
  combo_window : Z;
  combo_indicator_flash : Z;
  charging_heavy : bool;
  heavy_charge_time : Z;
  heavy_charge_required : Z;
  is_heavy_attack : bool;
  attack_range : Z;
  attack_arc : Z;
  base_knockback : Z;
  mouse_pos : Z * Z;
  attack_angle : float;
  attack_rotation : float;
  attack_direction : float * float;
  hit_enemies : gset Z;
  hit_count_this_attack : Z;
  can_cancel : bool;
  cancel_window_start : Z;
}.

Definition eta (r : t) : t :=
  mk (player r) (is_attacking r) (attack_frame r) (attack_phase r)
     (windup_frames r) (active_frames r) (recovery_frames r) (total_frames r)
     (attack_cooldown r) (attack_cooldown_max r) (combo_count r) (max_combo r)
     (combo_timer r) (combo_window r) (combo_indicator_flash r)
     (charging_heavy r) (heavy_charge_time r) (heavy_charge_required r)
     (is_heavy_attack r) (attack_range r) (attack_arc r) (base_knockback r)
     (mouse_pos r) (attack_angle r) (attack_rotation r) (attack_direction r)
     (hit_enemies r) (hit_count_this_attack r) (can_cancel r)
     (cancel_window_start r).

Definition set_player : PlayerView -> t -> t := ltac:(build_setter eta player).
Definition set_is_attacking : bool -> t -> t := ltac:(build_setter eta is_attacking).
Definition set_attack_frame : Z -> t -> t := ltac:(build_setter eta attack_frame).
Definition set_attack_phase : AttackPhases -> t -> t := ltac:(build_setter eta attack_phase).
Definition set_windup_frames : Z -> t -> t := ltac:(build_setter eta windup_frames).
Definition set_active_frames : Z -> t -> t := ltac:(build_setter eta active_frames).
Definition set_recovery_frames : Z -> t -> t := ltac:(build_setter eta recovery_frames).
Definition set_total_frames : Z -> t -> t := ltac:(build_setter eta total_frames).
Definition set_attack_cooldown : float -> t -> t := ltac:(build_setter eta attack_cooldown).
Definition set_attack_cooldown_max : Z -> t -> t := ltac:(build_setter eta attack_cooldown_max).
Definition set_combo_count : Z -> t -> t := ltac:(build_setter eta combo_count).
Definition set_combo_timer : Z -> t -> t := ltac:(build_setter eta combo_timer).
Definition set_combo_indicator_flash : Z -> t -> t := ltac:(build_setter eta combo_indicator_flash).
Definition set_charging_heavy : bool -> t -> t := ltac:(build_setter eta charging_heavy).
Definition set_heavy_charge_time : Z -> t -> t := ltac:(build_setter eta heavy_charge_time).
Definition set_is_heavy_attack : bool -> t -> t := ltac:(build_setter eta is_heavy_attack).
Definition set_mouse_pos : Z * Z -> t -> t := ltac:(build_setter eta mouse_pos).
Definition set_attack_angle : float -> t -> t := ltac:(build_setter eta attack_angle).
Definition set_attack_rotation : float -> t -> t := ltac:(build_setter eta attack_rotation).
Definition set_attack_direction : float * float -> t -> t := ltac:(build_setter eta attack_direction).
Definition set_hit_enemies : gset Z -> t -> t := ltac:(build_setter eta hit_enemies).
Definition set_hit_count_this_attack : Z -> t -> t := ltac:(build_setter eta hit_count_this_attack).
Definition set_can_cancel : bool -> t -> t := ltac:(build_setter eta can_cancel).

(** [__init__]; the sound manager, the weapon trail and the particle
    list are presentation and are left out. *)
Definition init (p : PlayerView) : t :=
  {| player := p;
     is_attacking := false; attack_frame := 0; attack_phase := NONE;
     windup_frames := 3; active_frames := 6; recovery_frames := 5;
     total_frames := 3 + 6 + 5;
     attack_cooldown := 0; attack_cooldown_max := 15;
     combo_count := 0; max_combo := 5; combo_timer := 0; combo_window := 45;
     combo_indicator_flash := 0;
     charging_heavy := false; heavy_charge_time := 0;
     heavy_charge_required := 30; is_heavy_attack := false;
     attack_range := 50; attack_arc := 90; base_knockback := 12;
     mouse_pos := (0, 0);
     attack_angle := 0; attack_rotation := 0;
     attack_direction := (1%float, 0%float);
     hit_enemies := ∅; hit_count_this_attack := 0;
     can_cancel := false; cancel_window_start := 4 |}.

(** [end_attack] *)
Definition end_attack (s : t) : t :=
  s |> set_is_attacking false |> set_attack_frame 0 |> set_attack_phase NONE
    |> set_is_heavy_attack false |> set_hit_enemies ∅ |> set_can_cancel false.

Section WithMath.
Context `{PyMath}.

(** [update]; [update_weapon_trail] is presentation. *)
Definition update (s : t) : Py.result t :=
  let! s := (if is_attacking s then
         let s := set_attack_frame (attack_frame s + 1) s in
         let s :=
           if attack_frame s <=? windup_frames s then
             s |> set_attack_phase WINDUP |> set_can_cancel false
           else if attack_frame s <=? windup_frames s + active_frames s then
             s |> set_attack_phase ACTIVE
               |> set_can_cancel (cancel_window_start s <=? attack_frame s)
           else
             s |> set_attack_phase RECOVERY |> set_can_cancel true in
         let! progress := Py.int_truediv (attack_frame s) (total_frames s) in
         let s := set_attack_rotation
                    (math_sin (progress * math.pi) * 180)%float s in
         Py.Ok (if total_frames s <=? attack_frame s then end_attack s else s)
       else Py.Ok s) in
  let s := if (0 <? attack_cooldown s)%float
           then set_attack_cooldown (attack_cooldown s - 1)%float s else s in
  let s :=
    if 0 <? combo_timer s then
      let s := set_combo_timer (combo_timer s - 1) s in
      let s := if combo_timer s <? 15
               then set_combo_indicator_flash ((combo_indicator_flash s + 1) `mod` 6) s
               else set_combo_indicator_flash 0 s in
      if combo_timer s =? 0 then set_combo_count 0 s else s
    else s in
  let s := if charging_heavy s
           then set_heavy_charge_time (heavy_charge_time s + 1) s else s in
  Py.Ok s.

(** [start_attack(heavy)] *)
Definition start_attack (heavy : bool) (s : t) : Py.result t :=
  let s := if is_attacking s then end_attack s else s in
  let s := s |> set_is_attacking true |> set_is_heavy_attack heavy
             |> set_attack_frame 0 |> set_attack_phase WINDUP
             |> set_hit_enemies ∅ |> set_hit_count_this_attack 0 in
  let dx := fst (mouse_pos s) - pygame.centerx (rect (player s)) in
  let dy := snd (mouse_pos s) - pygame.centery (rect (player s)) in
  let s := set_attack_angle
             (math_atan2 (Py.float_of_int dy) (Py.float_of_int dx)) s in
  let magnitude := math.sqrt (Py.float_of_int (dx * dx + dy * dy)) in
  let s := if (0 <? magnitude)%float
           then set_attack_direction
                  ((Py.float_of_int dx / magnitude)%float,
                   (Py.float_of_int dy / magnitude)%float) s
           else set_attack_direction (1%float, 0%float) s in
  let attack_speed_mult := attack_speed (player s) in
  let! q := Py.truediv 15 attack_speed_mult in
  let! n := Py.int q in
  let s := set_attack_cooldown_max (Z.max 8 n) s in
  let s := set_attack_cooldown (Py.float_of_int (attack_cooldown_max s)) s in
  let s :=
    if heavy then
      s |> set_attack_cooldown (attack_cooldown s * 1.5)%float
        |> set_windup_frames 5 |> set_active_frames 8 |> set_recovery_frames 8
    else
      s |> set_windup_frames 3 |> set_active_frames 6 |> set_recovery_frames 5 in
  let s := set_total_frames
             (windup_frames s + active_frames s + recovery_frames s) s in
  let s := if (0 <? combo_timer s) && (combo_count s <? max_combo s)
           then set_combo_count (combo_count s + 1) s
           else set_combo_count 1 s in
  Py.Ok (set_combo_timer (combo_window s) s).

(** [try_attack(heavy=False)] *)
Definition try_attack (heavy : bool) (s : t) : Py.result (bool * t) :=
  if is_attacking s && negb (can_cancel s) then Py.Ok (false, s)
  else if (0 <? attack_cooldown s)%float then Py.Ok (false, s)
  else if heavy then
    Py.Ok (true, s |> set_charging_heavy true |> set_heavy_charge_time 0)
  else
    let! s := start_attack false s in Py.Ok (true, s).

(** [release_heavy_attack] *)
Definition release_heavy_attack (s : t) : Py.result t :=
  if charging_heavy s then
    let! s := (if heavy_charge_required s <=? heavy_charge_time s
         then start_attack true s else start_attack false s) in
    Py.Ok (s |> set_charging_heavy false |> set_heavy_charge_time 0)
  else Py.Ok s.

(** [get_attack_hitbox]: [None] unless attacking in the active phase. *)
Definition get_attack_hitbox (s : t) : option pygame.Rect :=
  if negb (is_attacking s) || bool_decide (attack_phase s ≠ ACTIVE) then None
  else
    let player_center_x := Py.float_of_int (pygame.centerx (rect (player s))) in
    let player_center_y := Py.float_of_int (pygame.centery (rect (player s))) in
    let attack_range : float :=
      if is_heavy_attack s then (Py.float_of_int (attack_range s) * 1.3)%float
      else Py.float_of_int (attack_range s) in
    let hitbox_offset_x := (math_cos (attack_angle s) * (attack_range * 0.6))%float in
    let hitbox_offset_y := (math_sin (attack_angle s) * (attack_range * 0.6))%float in
    let hitbox_size : float :=
      if is_heavy_attack s then attack_range
      else Py.float_of_int (Py.trunc (attack_range * 0.85)%float) in
    let hitbox_x := (player_center_x + hitbox_offset_x - Py.ffloordiv hitbox_size 2)%float in
    let hitbox_y := (player_center_y + hitbox_offset_y - Py.ffloordiv hitbox_size 2)%float in
    Some (pygame.Rect_of hitbox_x hitbox_y hitbox_size hitbox_size).
End WithMath.

(** [calculate_damage]; [roll] is the value of [random.random()]. *)
Definition calculate_damage (roll : float) (s : t) : Py.result (Z * bool) :=
  let base_damage := attack_damage (player s) in
  let combo_mult := (1.0 + Py.float_of_int (combo_count s - 1) * 0.12)%float in
  let heavy_mult := (if is_heavy_attack s then 1.8 else 1.0)%float in
  let crit_chance := critical_chance (player s) in
  let is_crit := (roll <? crit_chance)%float in
  let crit_mult := if is_crit then critical_multiplier (player s) else 1.0%float in
  let! phase_progress := Py.int_truediv (attack_frame s - windup_frames s) (active_frames s) in
  let phase_mult := (1.0 + (1.0 - phase_progress) * 0.15)%float in
  let total_damage := (base_damage * combo_mult * heavy_mult * crit_mult * phase_mult)%float in
  let! d := Py.int total_damage in
  Py.Ok (d, is_crit).

(** The scalar [knockback_force] of [calculate_knockback]. *)
Definition knockback_force (s : t) : float :=
  let base_kb := Py.float_of_int (base_knockback s) in
  let base_kb := if is_heavy_attack s then (base_kb * 1.8)%float else base_kb in
  let combo_mult := (1.0 + Py.float_of_int (combo_count s - 1) * 0.1)%float in
  (base_kb * combo_mult)%float.

(** [calculate_knockback] *)
Definition calculate_knockback (s : t) : float * float :=
  let knockback_force := knockback_force s in
  let kb_x := (fst (attack_direction s) * knockback_force)%float in
  let kb_y := (snd (attack_direction s) * knockback_force * 0.7)%float in
  let kb_y := (kb_y - 2)%float in
  (kb_x, kb_y).

Section WithMath.
Context `{PyMath}.

(** [check_hit_enemy(enemy, screen_shake, hit_freeze)]: the result is
    the flag, the attack, the calls made on the enemy, and the two
    feedback objects.  [spawn_hit_effects] is presentation. *)
Definition check_hit_enemy (roll : float) (enemy : Enemy)
    (screen_shake : ScreenShake.t) (hit_freeze : HitFreeze.t) (s : t)
  : Py.result (bool * t * list EnemyCall * ScreenShake.t * HitFreeze.t) :=
  if negb (is_attacking s) || bool_decide (attack_phase s ≠ ACTIVE)
  then Py.Ok (false, s, [], screen_shake, hit_freeze)
  else if bool_decide (enemy_id enemy ∈ hit_enemies s)
  then Py.Ok (false, s, [], screen_shake, hit_freeze)
  else
    match get_attack_hitbox s with
    | None => Py.Ok (false, s, [], screen_shake, hit_freeze)
    | Some hitbox =>
        if pygame.colliderect hitbox (enemy_rect enemy) then
          let s := s |> set_hit_enemies (hit_enemies s ∪ {[ enemy_id enemy ]}) in
          let s := set_hit_count_this_attack (hit_count_this_attack s + 1) s in
          let! r := calculate_damage roll s in
          let damage : Z := fst r in
          let is_crit : bool := snd r in
          let kb_x := fst (calculate_knockback s) in
          let kb_y := snd (calculate_knockback s) in
          let hitstun_frames := if is_heavy_attack s then 12 else 8 in
          let calls := [take_damage damage; apply_knockback kb_x kb_y;
                        apply_hitstun hitstun_frames] in
          let shake_intensity := 3 in
          let shake_intensity := if is_heavy_attack s then 6 else shake_intensity in
          let shake_intensity := if is_crit then shake_intensity + 2 else shake_intensity in
          let screen_shake := ScreenShake.add_shake shake_intensity 8 screen_shake in
          let hit_freeze :=
            if is_heavy_attack s then HitFreeze.add_freeze 4 hit_freeze
            else if is_crit then HitFreeze.add_freeze 2 hit_freeze
            else hit_freeze in
          Py.Ok (true, s, calls, screen_shake, hit_freeze)
        else Py.Ok (false, s, [], screen_shake, hit_freeze)
    end.
End WithMath.

End MeleeAttack.

(** ** entities/enemies/base_boss.py *)
Module BaseBoss.

Inductive BossState :=
| IDLE | TAUNT | PATTERN_SELECT | ATTACK_WINDUP | ATTACK_EXECUTE
| ATTACK_RECOVERY | VULNERABLE | PHASE_TRANSITION | STUNNED | DEFEATED.

#[global] Instance BossState_eq_dec : EqDecision BossState.
Proof. solve_decision. Defined.

Record AttackPattern := mkPattern {
  name : string;
  damage : Z;
  windup_frames : Z;
  execute_frames : Z;
  recovery_frames : Z;
  telegraph_color : Z * Z * Z;
  is_special : bool;
  cooldown : Z;
  max_cooldown : Z;
}.

(** [AttackPattern.__init__] *)
Definition AttackPattern_init (name : string) (damage windup execute recovery : Z)
    (telegraph_color : Z * Z * Z) (is_special : bool) : AttackPattern :=
  mkPattern name damage windup execute recovery telegraph_color is_special 0 180.

Definition set_cooldown (v : Z) (p : AttackPattern) : AttackPattern :=
  mkPattern (name p) (damage p) (windup_frames p) (execute_frames p)
            (recovery_frames p) (telegraph_color p) (is_special p) v
            (max_cooldown p).

Record BossPhase := mkPhase {
  phase_number : Z;
  health_threshold : float;
  attack_patterns : list AttackPattern;
  attack_frequency : Z;
  special_attack_chance : float;
  transition_played : bool;
}.

(** [BossPhase.__init__] *)
Definition BossPhase_init (phase_number : Z) (health_threshold : float)
    (attack_patterns : list AttackPattern) (attack_frequency : Z)
    (special_attack_chance : float) : BossPhase :=
  mkPhase phase_number health_threshold attack_patterns attack_frequency
          special_attack_chance false.

Definition set_attack_patterns (v : list AttackPattern) (p : BossPhase) : BossPhase :=
  mkPhase (phase_number p) (health_threshold p) v (attack_frequency p)
          (special_attack_chance p) (transition_played p).

Definition set_transition_played (v : bool) (p : BossPhase) : BossPhase :=
  mkPhase (phase_number p) (health_threshold p) (attack_patterns p)
          (attack_frequency p) (special_attack_chance p) v.

(** What one tick draws from [random]: [random.random()], the index
    [random.choice] picks (taken modulo the length of its argument), and
    the two [random.randint(-5, 5)] of the transition shake. *)
Record Random := mkRandom {
  rand_random : float;
  rand_choice : nat;
  rand_shake_x : Z;
  rand_shake_y : Z;
}.

(** The boss.  A phase is referred to by its position in [phases]; the
    current attack is a reference to a pattern object owned by a phase,
    kept as the pair (position of the phase, position of the pattern).
    [target_player] holds the rectangle of the player object.  The
    name and the arena bounds are never read and are left out. *)
Record t := mk {
  max_health : Z;
  current_health : Z;
  rect : pygame.Rect;
  velocity_x : float;
  velocity_y : float;
  facing_right : bool;
  on_ground : bool;
  state : BossState;
  state_timer : Z;
  state_frame : Z;
  phases : list BossPhase;
  current_phase_index : nat;
  phase_transition_duration : Z;
  current_attack : option (nat * nat);
  attack_timer : Z;
  attack_cooldown : Z;
  is_invulnerable : bool;
  damage_flash_timer : Z;
  target_player : option pygame.Rect;
  decision_timer : Z;
  decision_cooldown : Z;
  telegraph_alpha : Z;
  shake_offset_x : Z;
  shake_offset_y : Z;
  intro_played : bool;
  is_defeated : bool;
  can_take_damage : bool;
}.

Definition eta (r : t) : t :=
  mk (max_health r) (current_health r) (rect r) (velocity_x r) (velocity_y r)
     (facing_right r) (on_ground r) (state r) (state_timer r) (state_frame r)
     (phases r) (current_phase_index r) (phase_transition_duration r)
     (current_attack r) (attack_timer r) (attack_cooldown r)
     (is_invulnerable r) (damage_flash_timer r) (target_player r)
     (decision_timer r) (decision_cooldown r) (telegraph_alpha r)
     (shake_offset_x r) (shake_offset_y r) (intro_played r) (is_defeated r)
     (can_take_damage r).

Definition set_current_health : Z -> t -> t := ltac:(build_setter eta current_health).
Definition set_rect : pygame.Rect -> t -> t := ltac:(build_setter eta rect).
Definition set_velocity_x : float -> t -> t := ltac:(build_setter eta velocity_x).
Definition set_velocity_y : float -> t -> t := ltac:(build_setter eta velocity_y).
Definition set_facing_right : bool -> t -> t := ltac:(build_setter eta facing_right).
Definition set_on_ground : bool -> t -> t := ltac:(build_setter eta on_ground).
Definition set_state : BossState -> t -> t := ltac:(build_setter eta state).
Definition set_state_timer : Z -> t -> t := ltac:(build_setter eta state_timer).
Definition set_state_frame : Z -> t -> t := ltac:(build_setter eta state_frame).
Definition set_phases : list BossPhase -> t -> t := ltac:(build_setter eta phases).
Definition set_current_phase_index : nat -> t -> t := ltac:(build_setter eta current_phase_index).
Definition set_current_attack : option (nat * nat) -> t -> t := ltac:(build_setter eta current_attack).
Definition set_attack_timer : Z -> t -> t := ltac:(build_setter eta attack_timer).
Definition set_attack_cooldown : Z -> t -> t := ltac:(build_setter eta attack_cooldown).
Definition set_is_invulnerable : bool -> t -> t := ltac:(build_setter eta is_invulnerable).
Definition set_damage_flash_timer : Z -> t -> t := ltac:(build_setter eta damage_flash_timer).
Definition set_target_player : option pygame.Rect -> t -> t := ltac:(build_setter eta target_player).
Definition set_decision_timer : Z -> t -> t := ltac:(build_setter eta decision_timer).
Definition set_telegraph_alpha : Z -> t -> t := ltac:(build_setter eta telegraph_alpha).
Definition set_shake_offset_x : Z -> t -> t := ltac:(build_setter eta shake_offset_x).
Definition set_shake_offset_y : Z -> t -> t := ltac:(build_setter eta shake_offset_y).
Definition set_intro_played : bool -> t -> t := ltac:(build_setter eta intro_played).
Definition set_is_defeated : bool -> t -> t := ltac:(build_setter eta is_defeated).
Definition set_can_take_damage : bool -> t -> t := ltac:(build_setter eta can_take_damage).

(** [__init__(x, y, name, max_health)] *)
Definition init (x y : Z) (max_health : Z) : t :=
  {| max_health := max_health; current_health := max_health;
     rect := pygame.mkRect x y 100 120;
     velocity_x := 0; velocity_y := 0;
     facing_right := false; on_ground := false;
     state := IDLE; state_timer := 0; state_frame := 0;
     phases := []; current_phase_index := 0%nat;
     phase_transition_duration := 180;
     current_attack := None; attack_timer := 0; attack_cooldown := 0;
     is_invulnerable := false; damage_flash_timer := 0;
     target_player := None;
     decision_timer := 0; decision_cooldown := 60;
     telegraph_alpha := 0; shake_offset_x := 0; shake_offset_y := 0;
     intro_played := false; is_defeated := false; can_take_damage := true |}.

(** [list.sort(key=..., reverse=True)]: stable, largest key first.  The
    elements travel with their old positions. *)
Fixpoint insert_desc {A} (key : A -> float) (a : A) (l : list A) : list A :=
  match l with
  | [] => [a]
  | b :: l' =>
      if (key a <? key b)%float then b :: insert_desc key a l' else a :: l
  end.

Definition sort_desc {A} (key : A -> float) (l : list A) : list A :=
  foldr (insert_desc key) [] l.

Fixpoint position_of (i : nat) (l : list nat) : option nat :=
  match l with
  | [] => None
  | j :: l' => if (i =? j)%nat then Some 0%nat else S <$> position_of i l'
  end.

(** [add_phase(phase)]: append, then sort by threshold, descending.  A
    reference held in [current_attack] follows its phase. *)
Definition add_phase (phase : BossPhase) (b : t) : t :=
  let appended := phases b ++ [phase] in
  let indexed := zip (seq 0 (length appended)) appended in
  let sorted := sort_desc (fun ip => health_threshold (snd ip)) indexed in
  let b := set_phases (snd <$> sorted) b in
  match current_attack b with
  | Some (i, j) =>
      match position_of i (fst <$> sorted) with
      | Some i' => set_current_attack (Some (i', j)) b
      | None => b
      end
  | None => b
  end.

(** The position of the first phase, in list order, whose threshold is
    at least the health fraction; the last position when there is none. *)
Fixpoint first_matching (health_percent : float) (l : list BossPhase) (i : nat)
  : option nat :=
  match l with
  | [] => None
  | phase :: l' =>
      if (health_percent <=? health_threshold phase)%float then Some i
      else first_matching health_percent l' (S i)
  end.

(** [get_current_phase()], as a position in [phases]. *)
Definition get_current_phase (b : t) : Py.result (option nat) :=
  match phases b with
  | [] => Py.Ok None
  | _ =>
      let! health_percent := Py.int_truediv (current_health b) (max_health b) in
      match first_matching health_percent (phases b) 0 with
      | Some i => Py.Ok (Some i)
      | None => Py.Ok (Some (length (phases b) - 1)%nat)
      end
  end.

(** [check_phase_transition()] *)
Definition check_phase_transition (b : t) : Py.result (bool * t) :=
  let! current_phase := get_current_phase b in
  match current_phase with
  | None => Py.Ok (false, b)
  | Some phase_index =>
      if bool_decide (phase_index ≠ current_phase_index b) then
        match phases b !! phase_index with
        | Some phase =>
            if negb (transition_played phase)
            then Py.Ok (true, set_current_phase_index phase_index b)
            else Py.Ok (false, b)
        | None => Py.Ok (false, b)
        end
      else Py.Ok (false, b)
  end.

(** [trigger_phase_transition()] *)
Definition trigger_phase_transition (b : t) : Py.result t :=
  let b := b |> set_state PHASE_TRANSITION
             |> set_state_timer (phase_transition_duration b)
             |> set_is_invulnerable true in
  let! current_phase := get_current_phase b in
  match current_phase with
  | Some i =>
      Py.Ok (set_phases (alter (set_transition_played true) i (phases b)) b)
  | None => Py.Ok b
  end.

(** [trigger_defeat()] *)
Definition trigger_defeat (b : t) : t :=
  b |> set_state DEFEATED |> set_is_defeated true |> set_can_take_damage false.

(** [take_damage(damage, knockback_x=0, knockback_y=0)] *)
Definition take_damage (damage : Z) (knockback_x knockback_y : float) (b : t)
  : Py.result t :=
  if is_invulnerable b || negb (can_take_damage b) then Py.Ok b
  else
    let b := set_current_health (current_health b - damage) b in
    let b := set_damage_flash_timer 10 b in
    let b := set_velocity_x (velocity_x b + knockback_x)%float b in
    let b := set_velocity_y (velocity_y b + knockback_y)%float b in
    let! r := check_phase_transition b in
    let! b := (if fst r then trigger_phase_transition (snd r) else Py.Ok (snd r)) in
    if current_health b <=? 0
    then Py.Ok (b |> set_current_health 0 |> trigger_defeat)
    else Py.Ok b.

(** The pattern object [current_attack] refers to. *)
Definition current_attack_pattern (b : t) : option AttackPattern :=
  match current_attack b with
  | Some (i, j) => phase ← phases b !! i; attack_patterns phase !! j
  | None => None
  end.

(** The positions of the patterns of [l] that satisfy [keep]. *)
Definition positions_where (keep : AttackPattern -> bool) (l : list AttackPattern)
  : list nat :=
  fst <$> filter (fun jp => keep (snd jp) = true) (zip (seq 0 (length l)) l).

(** [random.choice(l)] for a list that is not empty. *)
Definition choice (k : nat) (l : list nat) : option nat :=
  l !! (k `mod` length l)%nat.

(** [select_attack_pattern()] *)
Definition select_attack_pattern (rng : Random) (b : t)
  : Py.result (option (nat * nat)) :=
  let! current_phase := get_current_phase b in
  match current_phase with
  | None => Py.Ok None
  | Some i =>
      match phases b !! i with
      | None => Py.Ok None
      | Some phase =>
          let patterns := attack_patterns phase in
          let available_patterns :=
            positions_where (fun p => cooldown p <=? 0) patterns in
          match available_patterns with
          | [] => Py.Ok None
          | _ =>
              let use_special :=
                (rand_random rng <? special_attack_chance phase)%float in
              let special_patterns :=
                positions_where (fun p => (cooldown p <=? 0) && is_special p) patterns in
              match use_special, special_patterns with
              | true, _ :: _ =>
                  Py.Ok (pair i <$> choice (rand_choice rng) special_patterns)
              | _, _ =>
                  Py.Ok (pair i <$> choice (rand_choice rng) available_patterns)
              end
          end
      end
  end.

Definition _update_idle (b : t) : t :=
  let b := set_decision_timer (decision_timer b + 1) b in
  if (decision_cooldown b <=? decision_timer b) && (attack_cooldown b <=? 0)
  then b |> set_state PATTERN_SELECT |> set_state_frame 0 |> set_decision_timer 0
  else b.

Definition _update_taunt (b : t) : t :=
  if 60 <=? state_frame b
  then b |> set_state IDLE |> set_state_frame 0 else b.

Definition _update_pattern_select (rng : Random) (b : t) : Py.result t :=
  let! a := select_attack_pattern rng b in
  let b := set_current_attack a b in
  match current_attack_pattern b with
  | Some p =>
      Py.Ok (b |> set_state ATTACK_WINDUP |> set_state_frame 0
               |> set_attack_timer (windup_frames p))
  | None => Py.Ok (b |> set_state IDLE |> set_state_frame 0)
  end.

Definition _update_attack_windup (b : t) : Py.result t :=
  match current_attack_pattern b with
  | None => Py.Ok (set_state IDLE b)
  | Some p =>
      let! q := Py.int_truediv (state_frame b) (windup_frames p) in
      let! alpha := Py.int (q * 200)%float in
      let b := set_telegraph_alpha alpha b in
      if windup_frames p <=? state_frame b
      then Py.Ok (b |> set_state ATTACK_EXECUTE |> set_state_frame 0
                    |> set_attack_timer (execute_frames p))
      else Py.Ok b
  end.

(** [execute_attack_logic()]: nothing in the base class. *)
Definition execute_attack_logic (b : t) : t := b.

Definition _update_attack_execute (b : t) : t :=
  match current_attack_pattern b with
  | None => set_state IDLE b
  | Some p =>
      let b := execute_attack_logic b in
      if execute_frames p <=? state_frame b
      then b |> set_state ATTACK_RECOVERY |> set_state_frame 0
             |> set_attack_timer (recovery_frames p)
      else b
  end.

Definition _update_attack_recovery (b : t) : t :=
  match current_attack b, current_attack_pattern b with
  | Some (i, j), Some p =>
      if recovery_frames p <=? state_frame b then
        let reset phase :=
          set_attack_patterns
            (alter (set_cooldown (max_cooldown p)) j (attack_patterns phase)) phase in
        b |> set_phases (alter reset i (phases b))
          |> set_attack_cooldown 60
          |> set_current_attack None
          |> set_telegraph_alpha 0
          |> set_state IDLE |> set_state_frame 0
      else b
  | _, _ => set_state IDLE b
  end.

Definition _update_vulnerable (b : t) : t :=
  if 120 <=? state_frame b
  then b |> set_state IDLE |> set_state_frame 0 else b.

Definition _update_phase_transition (rng : Random) (b : t) : t :=
  let b :=
    if state_frame b `mod` 10 <? 5
    then b |> set_shake_offset_x (rand_shake_x rng)
           |> set_shake_offset_y (rand_shake_y rng)
    else b |> set_shake_offset_x 0 |> set_shake_offset_y 0 in
  if phase_transition_duration b <=? state_frame b
  then b |> set_is_invulnerable false |> set_state TAUNT |> set_state_frame 0
         |> set_shake_offset_x 0 |> set_shake_offset_y 0
  else b.

Definition _update_stunned (b : t) : t :=
  if 120 <=? state_frame b
  then b |> set_state IDLE |> set_state_frame 0 else b.

Definition _update_defeated (b : t) : t := b.

(** One tick of every cooldown of the patterns of a phase. *)
Definition tick_cooldowns (phase : BossPhase) : BossPhase :=
  set_attack_patterns
    ((fun p => if 0 <? cooldown p then set_cooldown (cooldown p - 1) p else p)
       <$> attack_patterns phase) phase.

(** [update_state_machine(player)] *)
Definition update_state_machine (player : option pygame.Rect) (rng : Random) (b : t)
  : Py.result t :=
  let b := set_state_frame (state_frame b + 1) b in
  let b := set_target_player player b in
  let! current_phase := get_current_phase b in
  let b := match current_phase with
           | Some i => set_phases (alter tick_cooldowns i (phases b)) b
           | None => b
           end in
  let b := if 0 <? attack_cooldown b
           then set_attack_cooldown (attack_cooldown b - 1) b else b in
  let b := if 0 <? damage_flash_timer b
           then set_damage_flash_timer (damage_flash_timer b - 1) b else b in
  match state b with
  | IDLE => Py.Ok (_update_idle b)
  | TAUNT => Py.Ok (_update_taunt b)
  | PATTERN_SELECT => _update_pattern_select rng b
  | ATTACK_WINDUP => _update_attack_windup b
  | ATTACK_EXECUTE => Py.Ok (_update_attack_execute b)
  | ATTACK_RECOVERY => Py.Ok (_update_attack_recovery b)
  | VULNERABLE => Py.Ok (_update_vulnerable b)
  | PHASE_TRANSITION => Py.Ok (_update_phase_transition rng b)
  | STUNNED => Py.Ok (_update_stunned b)
  | DEFEATED => Py.Ok (_update_defeated b)
  end.

(** [is_flying()]: not in the base class. *)
Definition is_flying (b : t) : bool := false.

(** [handle_platform_collision(platforms)] *)
Definition handle_platform_collision (platforms : list pygame.Rect) (b : t) : t :=
  let b := set_on_ground false b in
  foldl
    (fun b platform =>
       if pygame.colliderect (rect b) platform then
         if (0 <? velocity_y b)%float
            && (pygame.bottom (rect b) <=? pygame.top platform + 20)
         then b |> set_rect (pygame.set_bottom (pygame.top platform) (rect b))
                |> set_velocity_y 0 |> set_on_ground true
         else b
       else b)
    b platforms.

(** [update(player, platforms)] *)
Definition update (player : option pygame.Rect) (platforms : list pygame.Rect)
    (rng : Random) (b : t) : Py.result t :=
  if negb (intro_played b) then Py.Ok b
  else
    let! b := update_state_machine player rng b in
    let b := if negb (is_flying b)
             then set_velocity_y (velocity_y b + 0.5)%float b else b in
    let! vx := Py.int (velocity_x b) in
    let b := set_rect (pygame.move_ip (vx + shake_offset_x b) 0 (rect b)) b in
    let! vy := Py.int (velocity_y b) in
    let b := set_rect (pygame.move_ip 0 (vy + shake_offset_y b) (rect b)) b in
    let b := if negb (is_flying b)
             then handle_platform_collision platforms b else b in
    let b := set_velocity_x (velocity_x b * 0.85)%float b in
    match target_player b with
    | Some player_rect =>
        if negb (bool_decide (state b = DEFEATED))
           && negb (bool_decide (state b = PHASE_TRANSITION))
        then Py.Ok (set_facing_right
                      (pygame.centerx (rect b) <? pygame.centerx player_rect) b)
        else Py.Ok b
    | None => Py.Ok b
    end.

(** [get_health_percent()] *)
Definition get_health_percent (b : t) : float :=
  if 0 <? max_health b
  then (Py.float_of_int (current_health b) / Py.float_of_int (max_health b))%float
  else 0%float.

(** [play_intro()] *)
Definition play_intro (b : t) : t :=
  b |> set_intro_played true |> set_state TAUNT |> set_state_frame 0.

End BaseBoss.

(** ** entities/enemies/shadow_knight_boss.py: the boss as [BaseBoss]
    sees it (its phases and patterns; the movement and the hitbox of the
    subclass are not part of the base state). *)
Module ShadowKnight.

Definition phase1_patterns : list BaseBoss.AttackPattern :=
  [ BaseBoss.AttackPattern_init "Sword Slash" 15 30 15 30 (255, 100, 100) false;
    BaseBoss.AttackPattern_init "Overhead Smash" 25 45 10 40 (255, 50, 50) false;
    BaseBoss.AttackPattern_init "Spin Attack" 20 35 20 35 (200, 100, 200) true ].

Definition phase2_patterns : list BaseBoss.AttackPattern :=
  [ BaseBoss.AttackPattern_init "Quick Slash" 18 20 12 25 (255, 150, 100) false;
    BaseBoss.AttackPattern_init "Dash Slash" 30 25 20 30 (255, 200, 50) true;
    BaseBoss.AttackPattern_init "Double Slash" 20 30 25 35 (255, 100, 255) false;
    BaseBoss.AttackPattern_init "Spin Attack" 25 30 20 30 (200, 100, 200) true ].

Definition phase3_patterns : list BaseBoss.AttackPattern :=
  [ BaseBoss.AttackPattern_init "Fury Slash" 22 15 10 20 (255, 50, 50) false;
    BaseBoss.AttackPattern_init "Dash Slash" 35 20 15 25 (255, 200, 50) false;
    BaseBoss.AttackPattern_init "Triple Combo" 15 25 40 40 (255, 0, 255) true;
    BaseBoss.AttackPattern_init "Berserker Spin" 30 35 30 35 (150, 0, 150) true ].

(** [_setup_phases()] *)
Definition _setup_phases (b : BaseBoss.t) : BaseBoss.t :=
  b |> BaseBoss.add_phase (BaseBoss.BossPhase_init 1 1.0 phase1_patterns 120 0.15)
    |> BaseBoss.add_phase (BaseBoss.BossPhase_init 2 0.66 phase2_patterns 90 0.25)
    |> BaseBoss.add_phase (BaseBoss.BossPhase_init 3 0.33 phase3_patterns 70 0.35).

(** [__init__(x, y)] *)
Definition init (x y : Z) : BaseBoss.t :=
  BaseBoss.init x y 1000
    |> BaseBoss.set_rect (pygame.mkRect x y 80 100)
    |> _setup_phases.

End ShadowKnight.

(** ** The callers: Player.update and Game.update *)
Module Game.

Section PlayerUpdate.
(** What [Player.update] does after the combat update (weapon, stats,
    timers, movement, collisions, animation), for the input and the
    level of the tick. *)
Context {Env : Type} (gameplay : Env -> HollowKnightCombat.t -> HollowKnightCombat.t).

End PlayerUpdate.

(** A call [take_damage(damage)] made by the hit pass on an enemy or on
    the boss, with the knockback velocity written on the target (the boss
    is given no vertical one). *)
Record HitEvent := mkHit {
  target : Z;
  damage : float;
  knockback_x : Z;
  knockback_y : option Z;
}.

Section WithMath.
Context `{PyMath}.
(** What [stats.get_stat] would answer (see [HollowKnightCombat.get_damage]). *)
Variable get_stat : string -> float.

(** The loop of [Game.update] over the enemies near the hitbox: the
    calls made on the enemies, how the loop ended, and the combat. *)
Fixpoint hit_enemies_loop (nearby_enemies : list Enemy) (c : HollowKnightCombat.t)
  : list HitEvent * Py.result unit * HollowKnightCombat.t :=
  match nearby_enemies with
  | [] => ([], Py.Ok tt, c)
  | enemy :: rest =>
      let r := HollowKnightCombat.check_hit enemy c in
      if fst r then
        let c := snd r in
        match HollowKnightCombat.get_damage get_stat c with
        | Py.Raise e => ([], Py.Raise e, c)
        | Py.Ok damage =>
            let knockback_x :=
              if Player.facing_right (HollowKnightCombat.player c) then 8 else -8 in
            let knockback_y := -3 in
            let r' := hit_enemies_loop rest c in
            (mkHit (enemy_id enemy) damage knockback_x (Some knockback_y) :: fst (fst r'),
             snd (fst r'), snd r')
        end
      else hit_enemies_loop rest (snd r)
  end.

(** The boss's turn in the hit pass, after the enemies. *)
Definition hit_boss (attack_hitbox : pygame.Rect) (current_boss : option Enemy)
    (c : HollowKnightCombat.t)
  : list HitEvent * Py.result unit * HollowKnightCombat.t :=
  match current_boss with
  | Some boss =>
      if pygame.colliderect attack_hitbox (enemy_rect boss) then
        let r := HollowKnightCombat.check_hit boss c in
        if fst r then
          let c := snd r in
          match HollowKnightCombat.get_damage get_stat c with
          | Py.Raise e => ([], Py.Raise e, c)
          | Py.Ok damage =>
              let knockback_x :=
                if Player.facing_right (HollowKnightCombat.player c) then 5 else -5 in
              ([mkHit (enemy_id boss) damage knockback_x None], Py.Ok tt, c)
          end
        else ([], Py.Ok tt, snd r)
      else ([], Py.Ok tt, c)
  | None => ([], Py.Ok tt, c)
  end.

(** The player's part of the hit pass of [Game.update], the body of its
    [try]: [query] is the answer of the spatial index for the hitbox,
    filtered to the enemies.  The [except Exception] around it prints the
    exception and goes on; the result says which one was caught. *)
Definition player_hit_pass (query : pygame.Rect -> list Enemy)
    (current_boss : option Enemy) (c : HollowKnightCombat.t)
  : list HitEvent * option Py.exn * HollowKnightCombat.t :=
  if HollowKnightCombat.is_attacking c then
    match HollowKnightCombat.get_hitbox c with
    | Some attack_hitbox =>
        if pygame.truthy attack_hitbox then
          let r := hit_enemies_loop (query attack_hitbox) c in
          match snd (fst r) with
          | Py.Raise e => (fst (fst r), Some e, snd r)
          | Py.Ok _ =>
              let r' := hit_boss attack_hitbox current_boss (snd r) in
              (fst (fst r) ++ fst (fst r'),
               match snd (fst r') with Py.Raise e => Some e | Py.Ok _ => None end,
               snd r')
          end
        else ([], None, c)
    | None => ([], None, c)
    end
  else ([], None, c).
End WithMath.


End Game.

(** ** A reference [math]

    Series for the three functions, used to run the model on concrete
    inputs; the theorems hold for every [PyMath]. *)
Module libm.

Fixpoint series (n : nat) (k : float) (term x2 acc : float) (div : float -> float -> float) : float :=
  match n with
  | O => acc
  | S n' =>
      let term' := (- (div k term * x2))%float in
      series n' (k + 2) term' x2 (acc + term') div
  end.

(** The argument reduced to [[-pi, pi]]. *)
Definition reduce (x : float) : float :=
  let turns := (x / (2 * math.pi))%float in
  let k := Py.trunc (if (turns <? 0)%float then turns - 0.5 else turns + 0.5)%float in
  (x - Py.float_of_int k * (2 * math.pi))%float.

Definition sin (x : float) : float :=
  let r := reduce x in
  series 14 2 r (r * r) r (fun k t => t / (k * (k + 1)))%float.

Definition cos (x : float) : float :=
  let r := reduce x in
  series 14 1 1 (r * r) 1 (fun k t => t / (k * (k + 1)))%float.

Definition atan_small (t : float) : float :=
  let h u := (u / (1 + PrimFloat.sqrt (1 + u * u)))%float in
  let u := h (h t) in
  let u2 := (u * u)%float in
  let fix go (n : nat) (k : float) (pow acc : float) : float :=
    match n with
    | O => acc
    | S n' => let pow' := (- (pow * u2))%float in
              go n' (k + 2)%float pow' (acc + pow' / (k + 2))%float
    end in
  (4 * go 14%nat 1 u u)%float.

Definition atan (t : float) : float :=
  if (1 <? Py.fabs t)%float then
    ((if (0 <? t)%float then math.pi / 2 else - (math.pi / 2)) - atan_small (1 / t))%float
  else atan_small t.

Definition atan2 (y x : float) : float :=
  if (0 <? x)%float then atan (y / x)
  else if (x <? 0)%float then
    if (y <? 0)%float then (atan (y / x) - math.pi)%float
    else (atan (y / x) + math.pi)%float
  else if (0 <? y)%float then (math.pi / 2)%float
  else if (y <? 0)%float then (- (math.pi / 2))%float
  else 0%float.

Definition reference : PyMath :=
  {| math_atan2 := atan2; math_cos := cos; math_sin := sin |}.

End libm.


(** ** Runs

    The states an object can be in are those its methods produce from
    [__init__].  A call of [HollowKnightCombat.update] that raises has
    still assigned; the object is then in the state the call left, for
    whoever holds it after the exception. *)
Module HK := HollowKnightCombat.
Module Melee := MeleeAttack.
Module Feel := CombatFeelEnhancer.
Module Boss := BaseBoss.

(** What can happen to a [HollowKnightCombat]: its three entry points,
    and the game moving the player it belongs to. *)
Inductive hk_op :=
| HK_try_attack (attack_type : string) (is_up_attack : bool)
| HK_update
| HK_check_hit (enemy : Enemy)
| HK_move_player (p : Player.t).

Definition hk_step `{PyMath} (o : hk_op) (c : HK.t) : HK.t :=
  match o with
  | HK_try_attack a up => snd (HK.try_attack a up c)
  | HK_update => snd (HK.update c)
  | HK_check_hit e => snd (HK.check_hit e c)
  | HK_move_player p => HK.set_player p c
  end.

Inductive hk_reachable `{PyMath} : HK.t -> Prop :=
| hk_reach_init p : hk_reachable (HK.init p)
| hk_reach_step o c : hk_reachable c -> hk_reachable (hk_step o c).

(** Steps that stay inside one attack: hit checks, further presses of the
    attack button while the attack runs, the game moving or turning the
    player, and ticks other than the one that takes the timeline from
    recovery straight into the windup of the queued attack. *)
Inductive hk_same_attack `{PyMath} : HK.t -> HK.t -> Prop :=
| hk_sa_refl c : hk_same_attack c c
| hk_sa_check c c' e :
    hk_same_attack c c' -> hk_same_attack c (snd (HK.check_hit e c'))
| hk_sa_press c c' a up :
    hk_same_attack c c' -> HK.is_attacking c' = true ->
    hk_same_attack c (snd (HK.try_attack a up c'))
| hk_sa_move c c' p :
    hk_same_attack c c' -> hk_same_attack c (HK.set_player p c')
| hk_sa_tick c c' :
    hk_same_attack c c' ->
    ~ (HK.attack_phase c' = HK.RECOVERY
       /\ HK.attack_phase (snd (HK.update c')) = HK.WINDUP) ->
    hk_same_attack c (snd (HK.update c')).

(** What can happen to a [MeleeAttack]. *)
Inductive melee_op :=
| M_update
| M_try_attack (heavy : bool)
| M_release_heavy_attack
| M_start_attack (heavy : bool)
| M_end_attack
| M_check_hit_enemy (roll : float) (enemy : Enemy)
    (screen_shake : ScreenShake.t) (hit_freeze : HitFreeze.t)
| M_move_mouse (pos : Z * Z)
| M_move_player (p : Melee.PlayerView).

Definition melee_step `{PyMath} (o : melee_op) (m : Melee.t) : Py.result Melee.t :=
  match o with
  | M_update => Melee.update m
  | M_try_attack heavy => let! r := Melee.try_attack heavy m in Py.Ok (snd r)
  | M_release_heavy_attack => Melee.release_heavy_attack m
  | M_start_attack heavy => Melee.start_attack heavy m
  | M_end_attack => Py.Ok (Melee.end_attack m)
  | M_check_hit_enemy roll e shake freeze =>
      let! r := Melee.check_hit_enemy roll e shake freeze m in
      Py.Ok (snd (fst (fst (fst r))))
  | M_move_mouse pos => Py.Ok (Melee.set_mouse_pos pos m)
  | M_move_player p => Py.Ok (Melee.set_player p m)
  end.

Inductive melee_reachable `{PyMath} : Melee.t -> Prop :=
| melee_reach_init p : melee_reachable (Melee.init p)
| melee_reach_step o m m' :
    melee_reachable m -> melee_step o m = Py.Ok m' -> melee_reachable m'.

(** [n] ticks of the directional combat as the game runs them: the
    exception of a tick is caught nowhere, so it ends the run. *)
Fixpoint hk_ticks (n : nat) (c : HK.t) : Py.result unit * HK.t :=
  match n with
  | O => (Py.Ok tt, c)
  | S n' =>
      let r := HK.update c in
      match fst r with
      | Py.Ok _ => hk_ticks n' (snd r)
      | Py.Raise e => (Py.Raise e, snd r)
      end
  end.

(** A player standing on the ground, facing right, at (100, 200). *)
Definition a_player : Player.t :=
  Player.mk (pygame.mkRect 100 200 40 60) true true 0 Feel.init.

(** An enemy in front of that player. *)
Definition an_enemy : Enemy := mkEnemy 7 (pygame.mkRect 140 210 30 40).

(** What every reachable [HollowKnightCombat] satisfies: not attacking
    exactly in the phase [NONE], and a combo count of 0, 1 or 2. *)
Definition hk_inv (c : HK.t) : Prop :=
  (HK.is_attacking c = false <-> HK.attack_phase c = HK.NONE)
  /\ 0 <= HK.combo_count c <= 2.

(** What every reachable [MeleeAttack] satisfies: not attacking means the
    phase [NONE]; the combo count is between 0 and [max_combo], which stays
    5; the frame counts are those of a light or of a heavy attack. *)
Definition melee_inv (m : Melee.t) : Prop :=
  (Melee.is_attacking m = false -> Melee.attack_phase m = Melee.NONE)
  /\ Melee.max_combo m = 5
  /\ 0 <= Melee.combo_count m <= 5.

(** A player of the aimed combat, with the stats [PlayerStats] starts with. *)
Definition a_melee_player : Melee.PlayerView :=
  Melee.mkPlayer (pygame.mkRect 100 200 40 60) 1.0 10 0.05 1.5.

(** A sequence of operations on a [MeleeAttack]; an exception ends it. *)
Fixpoint melee_run `{PyMath} (ops : list melee_op) (m : Melee.t) : Py.result Melee.t :=
  match ops with
  | [] => Py.Ok m
  | o :: ops' => let! m' := melee_step o m in melee_run ops' m'
  end.

(** A sequence of operations on a [HollowKnightCombat]. *)
Definition hk_run `{PyMath} (ops : list hk_op) (c : HK.t) : HK.t :=
  foldl (fun c o => hk_step o c) c ops.

(** The result of a call that does not raise. *)
Definition value {A} (default : A) (r : Py.result A) : A :=
  match r with
  | Py.Ok a => a
  | Py.Raise _ => default
  end.

(** The two halves of [MeleeAttack.update], for reasoning about them one
    at a time: the attack animation, which can raise, and the timers. *)
Definition melee_update_attack `{PyMath} (s : Melee.t) : Py.result Melee.t :=
  if Melee.is_attacking s then
    let s := Melee.set_attack_frame (Melee.attack_frame s + 1) s in
    let s :=
      if Melee.attack_frame s <=? Melee.windup_frames s then
        s |> Melee.set_attack_phase Melee.WINDUP |> Melee.set_can_cancel false
      else if Melee.attack_frame s <=? Melee.windup_frames s + Melee.active_frames s then
        s |> Melee.set_attack_phase Melee.ACTIVE
          |> Melee.set_can_cancel (Melee.cancel_window_start s <=? Melee.attack_frame s)
      else
        s |> Melee.set_attack_phase Melee.RECOVERY |> Melee.set_can_cancel true in
    let! progress := Py.int_truediv (Melee.attack_frame s) (Melee.total_frames s) in
    let s := Melee.set_attack_rotation
               (math_sin (progress * math.pi) * 180)%float s in
    Py.Ok (if Melee.total_frames s <=? Melee.attack_frame s then Melee.end_attack s else s)
  else Py.Ok s.

Definition melee_update_timers (s : Melee.t) : Melee.t :=
  let s := if (0 <? Melee.attack_cooldown s)%float
           then Melee.set_attack_cooldown (Melee.attack_cooldown s - 1)%float s else s in
  let s :=
    if 0 <? Melee.combo_timer s then
      let s := Melee.set_combo_timer (Melee.combo_timer s - 1) s in
      let s := if Melee.combo_timer s <? 15
               then Melee.set_combo_indicator_flash
                      ((Melee.combo_indicator_flash s + 1) `mod` 6) s
               else Melee.set_combo_indicator_flash 0 s in
      if Melee.combo_timer s =? 0 then Melee.set_combo_count 0 s else s
    else s in
  if Melee.charging_heavy s
  then Melee.set_heavy_charge_time (Melee.heavy_charge_time s + 1) s else s.

(** The length of a vector, [math.sqrt(x*x + y*y)]. *)
Definition vector_magnitude (v : float * float) : float :=
  math.sqrt (fst v * fst v + snd v * snd v)%float.





(** The Shadow Knight after its intro. *)
Definition a_boss : Boss.t := Boss.play_intro (ShadowKnight.init 600 200).

(** * Properties *)

Arguments Py.truediv : simpl never.
Arguments Py.int_truediv : simpl never.
Arguments Py.int : simpl never.

(** ** HollowKnightCombat *)

Ltac hk_unfold :=
  unfold HK.get_total_duration, HK.get_windup_duration, HK.get_active_duration,
    HK.get_recovery_duration, HK._enter_active_phase, HK._enter_recovery_phase in *;
  simpl in *.

Lemma hk_get_hitbox_some (c : HK.t) :
  is_Some (HK.get_hitbox c) <-> HK.attack_phase c = HK.ACTIVE.
Proof.
  unfold HK.get_hitbox.
  destruct (HK.attack_phase c); simpl; split; intros Hx; try done;
    try (by destruct Hx); repeat case_bool_decide; repeat case_match; eauto.
Qed.

Lemma hk_start_attack_fields (c : HK.t) :
  let c' := HK._start_attack c in
  HK.is_attacking c' = true /\ HK.attack_phase c' = HK.WINDUP
  /\ HK.attack_timer c' = 0 /\ HK.hit_enemies c' = ∅
  /\ HK.combo_count c' = (if 0 <? HK.combo_timer c then Z.min (HK.combo_count c + 1) 2 else 0)
  /\ HK.combo_timer c' = HK.combo_window c
  /\ HK.attack_type c' = HK.attack_type c
  /\ HK.next_attack_queued c' = HK.next_attack_queued c
  /\ HK.light_timings c' = HK.light_timings c
  /\ HK.heavy_timings c' = HK.heavy_timings c
  /\ HK.upward_timings c' = HK.upward_timings c.
Proof.
  unfold HK._start_attack. simpl.
  destruct (0 <? HK.combo_timer c); simpl;
  destruct (Player.on_ground (HK.player c)); simpl;
  destruct (Player.facing_right (HK.player c)); simpl; repeat split; reflexivity.
Qed.

Lemma hk_inv_init p : hk_inv (HK.init p).
Proof. split; [done | simpl; lia]. Qed.

Lemma hk_inv_start c : hk_inv c -> hk_inv (HK._start_attack c).
Proof.
  intros [_ Hc]. destruct (hk_start_attack_fields c) as (Ha & Hp & _ & _ & Hcc & _).
  split.
  - rewrite Ha, Hp. split; discriminate.
  - rewrite Hcc. destruct (0 <? HK.combo_timer c); lia.
Qed.

Lemma hk_inv_set_type ty c : hk_inv c -> hk_inv (HK.set_attack_type ty c).
Proof. intros H; exact H. Qed.

Lemma hk_inv_try_attack a up c : hk_inv c -> hk_inv (snd (HK.try_attack a up c)).
Proof.
  intros Hi. unfold HK.try_attack.
  destruct (HK.is_attacking c).
  - repeat case_match; exact Hi.
  - simpl. apply hk_inv_start. repeat case_match; exact Hi.
Qed.

Lemma hk_inv_end_attack c : hk_inv c -> hk_inv (HK._end_attack c).
Proof.
  intros Hi. unfold HK._end_attack. case_match.
  - apply hk_inv_start. exact Hi.
  - destruct Hi as [_ Hc]. split; [done | exact Hc].
Qed.

(** Entering the active phase always raises: the phase is assigned, then
    the first [Particle(...)] call does not bind its keyword [fade]. *)
Lemma hk_enter_active_phase_eq c :
  HK._enter_active_phase c = (Py.Raise Py.TypeError, HK.set_attack_phase HK.ACTIVE c).
Proof. reflexivity. Qed.

Lemma hk_get_damage_raises get_stat c :
  HK.get_damage get_stat c = Py.Raise Py.AttributeError.
Proof. reflexivity. Qed.

Lemma hk_inv_update c : hk_inv c -> hk_inv (snd (HK.update c)).
Proof.
  intros Hi. unfold HK.update.
  set (c1 := if 0 <? HK.combo_timer c then _ else c).
  assert (H1 : hk_inv c1).
  { subst c1. destruct Hi as [Ha Hc]. repeat case_match; split; simpl; try done; lia. }
  clearbody c1. destruct (HK.is_attacking c1) eqn:Hatt; simpl; [| exact H1].
  destruct H1 as [Ha Hc].
  destruct (HK.attack_phase c1) eqn:Hph; simpl; rewrite ?Hph.
  - exfalso. destruct Ha as [_ Ha]. rewrite Ha in Hatt; done.
  - rewrite hk_enter_active_phase_eq.
    case_match; split; simpl; try done; rewrite ?Hatt, ?Hph; split; discriminate.
  - case_match; split; simpl; try done; rewrite ?Hatt, ?Hph; split; discriminate.
  - case_match; cbn [snd].
    + apply hk_inv_end_attack. split; simpl; try done. rewrite Hatt, Hph; split; discriminate.
    + split; simpl; try done; rewrite ?Hatt, ?Hph; split; discriminate.
Qed.

Section HKSteps.
Context `{PyMath}.
Lemma hk_check_hit_timeline e c :
  let c' := snd (HK.check_hit e c) in
  HK.is_attacking c' = HK.is_attacking c /\ HK.attack_phase c' = HK.attack_phase c
  /\ HK.combo_count c' = HK.combo_count c /\ HK.combo_timer c' = HK.combo_timer c
  /\ HK.attack_timer c' = HK.attack_timer c /\ HK.attack_type c' = HK.attack_type c
  /\ HK.next_attack_queued c' = HK.next_attack_queued c
  /\ HK.hit_enemies c ⊆ HK.hit_enemies c'.
Proof.
  unfold HK.check_hit. repeat case_match; simpl; repeat split; try reflexivity; set_solver.
Qed.

Lemma hk_inv_step o c : hk_inv c -> hk_inv (hk_step o c).
Proof.
  intros Hi. destruct o; simpl.
  - by apply hk_inv_try_attack.
  - by apply hk_inv_update.
  - destruct (hk_check_hit_timeline enemy c) as (Ha & Hp & Hc & _).
    unfold hk_inv. rewrite Ha, Hp, Hc. exact Hi.
  - exact Hi.
Qed.

Lemma hk_reachable_inv c : hk_reachable c -> hk_inv c.
Proof. induction 1; [apply hk_inv_init | by apply hk_inv_step]. Qed.
End HKSteps.

(** One tick in the windup: it returns while the timer stays below the
    windup length, and raises on the tick that reaches it. *)
Lemma hk_update_windup c :
  HK.is_attacking c = true -> HK.attack_phase c = HK.WINDUP ->
  let c' := snd (HK.update c) in
  HK.is_attacking c' = true
  /\ HK.attack_timer c' = HK.attack_timer c + 1
  /\ HK.attack_type c' = HK.attack_type c
  /\ HK.light_timings c' = HK.light_timings c
  /\ HK.heavy_timings c' = HK.heavy_timings c
  /\ HK.upward_timings c' = HK.upward_timings c
  /\ (if HK.get_windup_duration c <=? HK.attack_timer c + 1
      then fst (HK.update c) = Py.Raise Py.TypeError /\ HK.attack_phase c' = HK.ACTIVE
      else fst (HK.update c) = Py.Ok tt /\ HK.attack_phase c' = HK.WINDUP).
Proof.
  intros Ha Hp. unfold HK.update.
  set (c1 := if 0 <? HK.combo_timer c then _ else c).
  assert (H1 : HK.is_attacking c1 = true /\ HK.attack_phase c1 = HK.WINDUP
               /\ HK.attack_timer c1 = HK.attack_timer c
               /\ HK.attack_type c1 = HK.attack_type c
               /\ HK.light_timings c1 = HK.light_timings c
               /\ HK.heavy_timings c1 = HK.heavy_timings c
               /\ HK.upward_timings c1 = HK.upward_timings c).
  { subst c1. repeat case_match; repeat split; done. }
  destruct H1 as (Ha1 & Hp1 & Ht1 & Hty1 & Hl1 & Hh1 & Hu1).
  assert (Hw : HK.get_windup_duration c1 = HK.get_windup_duration c).
  { unfold HK.get_windup_duration. by rewrite Hty1, Hl1, Hh1, Hu1. }
  rewrite <- Ht1, <- Hty1, <- Hl1, <- Hh1, <- Hu1, <- Hw. clearbody c1.
  rewrite Ha1. simpl. rewrite Hp1. rewrite hk_enter_active_phase_eq.
  change (HK.get_windup_duration (HK.set_attack_timer (HK.attack_timer c1 + 1) c1))
    with (HK.get_windup_duration c1).
  destruct (HK.get_windup_duration c1 <=? HK.attack_timer c1 + 1); simpl;
    repeat split; done.
Qed.

Lemma hk_ticks_succ n : forall c,
  hk_ticks (S n) c
  = match fst (hk_ticks n c) with
    | Py.Ok _ =>
        match fst (HK.update (snd (hk_ticks n c))) with
        | Py.Ok _ => (Py.Ok tt, snd (HK.update (snd (hk_ticks n c))))
        | Py.Raise e => (Py.Raise e, snd (HK.update (snd (hk_ticks n c))))
        end
    | Py.Raise e => hk_ticks n c
    end.
Proof.
  induction n as [|n IH]; intros c.
  - simpl. destruct (HK.update c) as [[[]|e] c']; reflexivity.
  - change (hk_ticks (S (S n)) c)
      with (match fst (HK.update c) with
            | Py.Ok _ => hk_ticks (S n) (snd (HK.update c))
            | Py.Raise e => (Py.Raise e, snd (HK.update c))
            end).
    change (hk_ticks (S n) c)
      with (match fst (HK.update c) with
            | Py.Ok _ => hk_ticks n (snd (HK.update c))
            | Py.Raise e => (Py.Raise e, snd (HK.update c))
            end).
    destruct (fst (HK.update c)); [apply IH | reflexivity].
Qed.

(** The run of an attack through its windup: every tick before the one
    that reaches the windup length returns and leaves the phase [WINDUP];
    that tick raises, and the run ends there. *)
Lemma hk_ticks_windup (n : nat) : forall c,
  HK.is_attacking c = true -> HK.attack_phase c = HK.WINDUP ->
  HK.attack_timer c + Z.of_nat n < HK.get_windup_duration c ->
  let r := hk_ticks n c in
  fst r = Py.Ok tt
  /\ HK.is_attacking (snd r) = true /\ HK.attack_phase (snd r) = HK.WINDUP
  /\ HK.attack_timer (snd r) = HK.attack_timer c + Z.of_nat n
  /\ HK.get_windup_duration (snd r) = HK.get_windup_duration c.
Proof.
  induction n as [|n IH]; intros c Ha Hp Hlt.
  - simpl. repeat split; try done. lia.
  - destruct (hk_update_windup c Ha Hp) as (Ha' & Ht' & Hty & Hl & Hh & Hu & Hw).
    replace (HK.get_windup_duration c <=? HK.attack_timer c + 1) with false in Hw
      by (symmetry; apply Z.leb_gt; lia).
    destruct Hw as [Hok Hp'].
    assert (Hwd : HK.get_windup_duration (snd (HK.update c)) = HK.get_windup_duration c).
    { unfold HK.get_windup_duration. by rewrite Hty, Hl, Hh, Hu. }
    destruct (IH (snd (HK.update c)) Ha' Hp') as (R1 & R2 & R3 & R4 & R5).
    { rewrite Ht', Hwd. lia. }
    cbn [hk_ticks]. rewrite Hok. cbn zeta.
    repeat split; try done.
    + rewrite R4, Ht'. lia.
    + by rewrite R5.
Qed.

Lemma hk_ticks_raise (n : nat) : forall c,
  HK.is_attacking c = true -> HK.attack_phase c = HK.WINDUP ->
  HK.attack_timer c + Z.of_nat n < HK.get_windup_duration c ->
  HK.get_windup_duration c <= HK.attack_timer c + Z.of_nat n + 1 ->
  forall k, (n < k)%nat ->
  fst (hk_ticks k c) = Py.Raise Py.TypeError
  /\ HK.attack_phase (snd (hk_ticks k c)) = HK.ACTIVE.
Proof.
  intros c Ha Hp Hlt Hge.
  destruct (hk_ticks_windup n c Ha Hp Hlt) as (R1 & R2 & R3 & R4 & R5).
  destruct (hk_update_windup (snd (hk_ticks n c)) R2 R3) as (_ & _ & _ & _ & _ & _ & Hw).
  replace (HK.get_windup_duration (snd (hk_ticks n c))
           <=? HK.attack_timer (snd (hk_ticks n c)) + 1) with true in Hw
    by (symmetry; apply Z.leb_le; lia).
  destruct Hw as [Hr Hact].
  assert (Hn : fst (hk_ticks (S n) c) = Py.Raise Py.TypeError
               /\ HK.attack_phase (snd (hk_ticks (S n) c)) = HK.ACTIVE).
  { rewrite hk_ticks_succ, R1, Hr. done. }
  intros k Hk. induction k as [|k IHk]; [lia|].
  destruct (decide (k = n)) as [->|Hne]; [exact Hn|].
  destruct IHk as [E1 E2]; [lia|].
  rewrite hk_ticks_succ, E1. done.
Qed.

(** C7 on the code: a light attack (4/8/10) started at tick 0 from an idle
    combat.  The start returns [True]; [get_hitbox()] is [None] at ticks 0
    to 3, each of the first three updates returning; the fourth update
    assigns the active phase and raises TypeError, so the run of the game
    ends at tick 4 and no later tick is computed. *)
Theorem C7_light_attack_raises (c : HK.t) :
  HK.is_attacking c = false ->
  HK.light_timings c = HK.mkTimings 4 8 10 ->
  let c0 := snd (HK.try_attack "light" false c) in
  fst (HK.try_attack "light" false c) = true
  /\ Forall (fun t => fst (hk_ticks t c0) = Py.Ok tt
                      /\ HK.get_hitbox (snd (hk_ticks t c0)) = None) (seq 0 4)
  /\ fst (HK.update (snd (hk_ticks 3 c0))) = Py.Raise Py.TypeError
  /\ HK.attack_phase (snd (HK.update (snd (hk_ticks 3 c0)))) = HK.ACTIVE
  /\ forall t, (4 <= t)%nat -> fst (hk_ticks t c0) = Py.Raise Py.TypeError.
Proof.
  intros Hidle Hlt c0.
  assert (Htry : HK.try_attack "light" false c
                 = (true, HK._start_attack (HK.set_attack_type (Some HK.LIGHT) c))).
  { unfold HK.try_attack. by rewrite Hidle. }
  assert (Hc0 : c0 = HK._start_attack (HK.set_attack_type (Some HK.LIGHT) c)).
  { subst c0. by rewrite Htry. }
  rewrite Htry. clearbody c0. cbn [fst].
  destruct (hk_start_attack_fields (HK.set_attack_type (Some HK.LIGHT) c))
    as (Ha & Hp & Ht & _ & _ & _ & Hty & _ & Hl & _).
  rewrite <- Hc0 in Ha, Hp, Ht, Hty, Hl.
  change (HK.attack_type c0 = Some HK.LIGHT) in Hty.
  change (HK.light_timings c0 = HK.light_timings c) in Hl.
  rewrite Hlt in Hl. clear Hc0 Htry.
  assert (Hw : HK.get_windup_duration c0 = 4).
  { unfold HK.get_windup_duration. by rewrite Hty, Hl. }
  assert (Hbefore : forall n, (n < 4)%nat ->
            fst (hk_ticks n c0) = Py.Ok tt
            /\ HK.get_hitbox (snd (hk_ticks n c0)) = None).
  { intros n Hn.
    destruct (hk_ticks_windup n c0 Ha Hp) as (R1 & _ & R3 & _); [rewrite Ht, Hw; lia|].
    split; [exact R1|].
    destruct (HK.get_hitbox (snd (hk_ticks n c0))) eqn:E; [|done].
    assert (Hs : is_Some (HK.get_hitbox (snd (hk_ticks n c0)))) by (by rewrite E).
    apply hk_get_hitbox_some in Hs. congruence. }
  assert (Hafter : forall k, (3 < k)%nat ->
            fst (hk_ticks k c0) = Py.Raise Py.TypeError
            /\ HK.attack_phase (snd (hk_ticks k c0)) = HK.ACTIVE).
  { apply (hk_ticks_raise 3 c0 Ha Hp); rewrite Ht, Hw; lia. }
  split; [done|].
  split; [repeat (apply Forall_cons; split; [apply Hbefore; lia|]); apply Forall_nil_2|].
  destruct (Hafter 4%nat) as [E1 E2]; [lia|].
  rewrite hk_ticks_succ in E1, E2.
  destruct (Hbefore 3%nat) as [E3 _]; [lia|]. rewrite E3 in E1, E2.
  destruct (fst (HK.update (snd (hk_ticks 3 c0)))) as [[]|e] eqn:E; cbn [fst snd] in *;
    [discriminate|].
  split; [exact E1|]. split; [exact E2|].
  intros t Ht4. apply Hafter. lia.
Qed.

Section HKHits.
Context `{PyMath}.

Lemma hk_check_hit_already_hit e c :
  enemy_id e ∈ HK.hit_enemies c -> HK.check_hit e c = (false, c).
Proof.
  intros Hin. unfold HK.check_hit.
  destruct (negb (HK.is_attacking c) || bool_decide (HK.attack_phase c ≠ HK.ACTIVE)); [done|].
  by rewrite bool_decide_eq_true_2.
Qed.

Lemma hk_check_hit_registers e c :
  fst (HK.check_hit e c) = true ->
  (enemy_id e ∉ HK.hit_enemies c)
  /\ HK.hit_enemies (snd (HK.check_hit e c)) = HK.hit_enemies c ∪ {[ enemy_id e ]}
  /\ HK.is_attacking c = true /\ HK.attack_phase c = HK.ACTIVE.
Proof.
  unfold HK.check_hit.
  destruct (HK.is_attacking c) eqn:Ha; simpl; [|intros; discriminate].
  case_bool_decide as Hp; simpl; [intros; discriminate|].
  case_bool_decide as Hin; simpl; [intros; discriminate|].
  repeat case_match; simpl; try (intros; discriminate). intros _.
  repeat split; try done.
Qed.

Lemma hk_check_hit_missed e c :
  fst (HK.check_hit e c) = false -> snd (HK.check_hit e c) = c.
Proof. unfold HK.check_hit. repeat case_match; simpl; done. Qed.

Lemma hk_update_hit_enemies c :
  HK.hit_enemies (snd (HK.update c)) = HK.hit_enemies c
  \/ (HK.attack_phase c = HK.RECOVERY /\ HK.attack_phase (snd (HK.update c)) = HK.WINDUP).
Proof.
  unfold HK.update.
  set (c1 := if 0 <? HK.combo_timer c then _ else c).
  assert (H1 : HK.hit_enemies c1 = HK.hit_enemies c
               /\ HK.attack_phase c1 = HK.attack_phase c).
  { subst c1. repeat case_match; split; done. }
  destruct H1 as [<- <-]. clearbody c1.
  destruct (HK.is_attacking c1); simpl; [|by left].
  destruct (HK.attack_phase c1) eqn:Hph; simpl; rewrite ?Hph; simpl;
    rewrite ?hk_enter_active_phase_eq;
    try (by left); try (case_match; by left).
  case_match; [|by left]. cbn [snd]. unfold HK._end_attack. case_match; [|by left].
  right. split; [done|].
  by destruct (hk_start_attack_fields
                 (HK.set_next_attack_queued false
                    (HK.set_attack_timer (HK.attack_timer c1 + 1) c1)))
    as (_ & -> & _).
Qed.

Lemma hk_press_while_attacking a up c :
  HK.is_attacking c = true ->
  HK.hit_enemies (snd (HK.try_attack a up c)) = HK.hit_enemies c.
Proof. intros Ha. unfold HK.try_attack. rewrite Ha. by repeat case_match. Qed.

Lemma hk_same_attack_hit_enemies c c' :
  hk_same_attack c c' -> HK.hit_enemies c ⊆ HK.hit_enemies c'.
Proof.
  induction 1 as [c|c c' e _ IH|c c' a up _ IH Ha|c c' p _ IH|c c' _ IH Hn].
  - done.
  - destruct (hk_check_hit_timeline e c') as (_ & _ & _ & _ & _ & _ & _ & Hs). set_solver.
  - by rewrite hk_press_while_attacking.
  - exact IH.
  - destruct (hk_update_hit_enemies c') as [-> | Hr]; [done | by destruct Hn].
Qed.

(** The loop over the enemies makes no [take_damage] call: the first hit
    that registers is followed by [get_damage], which raises. *)
Lemma hk_loop_events get_stat l : forall c,
  let r := Game.hit_enemies_loop get_stat l c in
  fst (fst r) = []
  /\ HK.hit_enemies c ⊆ HK.hit_enemies (snd r)
  /\ (snd (fst r) = Py.Ok tt \/ snd (fst r) = Py.Raise Py.AttributeError).
Proof.
  induction l as [|e l IH]; intros c; cbn [Game.hit_enemies_loop].
  - split; [done|]. split; [done|]. by left.
  - cbv zeta. destruct (fst (HK.check_hit e c)) eqn:Hhit.
    + rewrite hk_get_damage_raises. cbn [fst snd].
      destruct (hk_check_hit_timeline e c) as (_ & _ & _ & _ & _ & _ & _ & Hs).
      split; [done|]. split; [exact Hs|]. by right.
    + rewrite (hk_check_hit_missed e c Hhit). apply IH.
Qed.

Lemma hk_hit_boss_events get_stat hb boss c :
  let r := Game.hit_boss get_stat hb boss c in
  fst (fst r) = [] /\ HK.hit_enemies c ⊆ HK.hit_enemies (snd r).
Proof.
  unfold Game.hit_boss. destruct boss as [b|]; [|done].
  destruct (pygame.colliderect hb (enemy_rect b)); [|done].
  destruct (hk_check_hit_timeline b c) as (_ & _ & _ & _ & _ & _ & _ & Hs).
  destruct (fst (HK.check_hit b c)); [rewrite hk_get_damage_raises|]; done.
Qed.

Lemma hk_pass_events get_stat query boss c :
  fst (fst (Game.player_hit_pass get_stat query boss c)) = [].
Proof.
  unfold Game.player_hit_pass.
  destruct (HK.is_attacking c); [|done].
  destruct (HK.get_hitbox c) as [hb|]; [|done].
  destruct (pygame.truthy hb); [|done].
  destruct (hk_loop_events get_stat (query hb) c) as (E & _ & _).
  destruct (snd (fst (Game.hit_enemies_loop get_stat (query hb) c))); cbn [fst]; [|exact E].
  rewrite E. simpl.
  by destruct (hk_hit_boss_events get_stat hb boss
                 (snd (Game.hit_enemies_loop get_stat (query hb) c))) as [-> _].
Qed.
End HKHits.

(** ** MeleeAttack *)

Section MeleeSteps.
Context `{PyMath}.

Lemma melee_start_attack_ok heavy m m' :
  Melee.start_attack heavy m = Py.Ok m' ->
  Melee.is_attacking m' = true /\ Melee.attack_phase m' = Melee.WINDUP
  /\ Melee.attack_frame m' = 0 /\ Melee.hit_enemies m' = ∅
  /\ Melee.is_heavy_attack m' = heavy
  /\ Melee.combo_count m'
     = (if (0 <? Melee.combo_timer m) && (Melee.combo_count m <? Melee.max_combo m)
        then Melee.combo_count m + 1 else 1)
  /\ Melee.combo_timer m' = Melee.combo_window m
  /\ Melee.max_combo m' = Melee.max_combo m
  /\ Melee.charging_heavy m' = Melee.charging_heavy m.
Proof.
  unfold Melee.start_attack.
  destruct (Py.truediv 15 _) as [q|]; simpl; [|discriminate].
  destruct (Py.int q) as [n|]; simpl; [|discriminate].
  intros [= <-].
  destruct (Melee.is_attacking m), heavy; simpl;
    destruct (PrimFloat.ltb 0 _); simpl;
    destruct ((0 <? Melee.combo_timer m) && (Melee.combo_count m <? Melee.max_combo m));
    simpl; repeat split; reflexivity.
Qed.

Lemma melee_update_split m :
  Melee.update m = (let! s := melee_update_attack m in Py.Ok (melee_update_timers s)).
Proof. reflexivity. Qed.

Lemma melee_update_timers_ok s :
  let s' := melee_update_timers s in
  Melee.is_attacking s' = Melee.is_attacking s
  /\ Melee.attack_phase s' = Melee.attack_phase s
  /\ Melee.hit_enemies s' = Melee.hit_enemies s
  /\ Melee.max_combo s' = Melee.max_combo s
  /\ (Melee.combo_count s' = Melee.combo_count s \/ Melee.combo_count s' = 0)
  /\ (Melee.combo_timer s = 1 -> Melee.combo_count s' = 0).
Proof.
  unfold melee_update_timers.
  destruct (PrimFloat.ltb 0 _); simpl;
  destruct (0 <? Melee.combo_timer s) eqn:E1; simpl;
  try destruct (Melee.combo_timer s - 1 <? 15); simpl;
  try destruct (Melee.combo_timer s - 1 =? 0) eqn:E2; simpl;
  destruct (Melee.charging_heavy s); simpl;
  repeat split; auto; intros; lia.
Qed.

Lemma melee_update_attack_ok m s :
  melee_update_attack m = Py.Ok s ->
  (Melee.is_attacking s = false ->
   Melee.attack_phase m = Melee.NONE \/ Melee.is_attacking m = true ->
   Melee.attack_phase s = Melee.NONE)
  /\ Melee.max_combo s = Melee.max_combo m
  /\ Melee.combo_count s = Melee.combo_count m
  /\ Melee.combo_timer s = Melee.combo_timer m
  /\ (Melee.is_attacking s = true -> Melee.hit_enemies s = Melee.hit_enemies m).
Proof.
  unfold melee_update_attack.
  destruct (Melee.is_attacking m) eqn:Hatt.
  - destruct (Py.int_truediv _ _) as [q|]; simpl; [|discriminate].
    intros [= <-]. unfold Melee.end_attack.
    repeat split; repeat (case_match; simpl in *); auto; try (intros; congruence).
  - intros [= <-]. repeat split; auto; try congruence.
    intros _ [?|?]; congruence.
Qed.

Lemma melee_update_ok m m' :
  Melee.update m = Py.Ok m' ->
  (Melee.is_attacking m' = false -> Melee.attack_phase m = Melee.NONE \/ Melee.is_attacking m = true
                                   -> Melee.attack_phase m' = Melee.NONE)
  /\ Melee.max_combo m' = Melee.max_combo m
  /\ (Melee.combo_count m' = Melee.combo_count m \/ Melee.combo_count m' = 0)
  /\ (Melee.combo_timer m = 1 -> Melee.combo_count m' = 0)
  /\ (Melee.is_attacking m' = true -> Melee.hit_enemies m' = Melee.hit_enemies m).
Proof.
  rewrite melee_update_split.
  destruct (melee_update_attack m) as [s|] eqn:HA; simpl; [|discriminate].
  intros [= <-].
  destruct (melee_update_attack_ok _ _ HA) as (A1 & A2 & A3 & A4 & A5).
  destruct (melee_update_timers_ok s) as (T1 & T2 & T3 & T4 & T5 & T6).
  rewrite T1, T2, T3, T4. split; [exact A1|]. split; [exact A2|].
  split; [destruct T5 as [T5 | T5]; rewrite T5; auto|].
  split; [intros Ht; apply T6; congruence|].
  intros Hx. by apply A5.
Qed.

Lemma melee_check_hit_already_hit roll e shake freeze m :
  enemy_id e ∈ Melee.hit_enemies m ->
  Melee.check_hit_enemy roll e shake freeze m = Py.Ok (false, m, [], shake, freeze).
Proof.
  intros Hin. unfold Melee.check_hit_enemy.
  destruct (negb (Melee.is_attacking m) || bool_decide (Melee.attack_phase m ≠ Melee.ACTIVE));
    [done|].
  by rewrite bool_decide_eq_true_2.
Qed.

Lemma melee_check_hit_ok roll e shake freeze m hit m' calls shake' freeze' :
  Melee.check_hit_enemy roll e shake freeze m = Py.Ok (hit, m', calls, shake', freeze') ->
  Melee.is_attacking m' = Melee.is_attacking m
  /\ Melee.attack_phase m' = Melee.attack_phase m
  /\ Melee.combo_count m' = Melee.combo_count m
  /\ Melee.max_combo m' = Melee.max_combo m
  /\ (hit = false -> m' = m /\ calls = [] /\ shake' = shake /\ freeze' = freeze)
  /\ (hit = true ->
      (enemy_id e ∉ Melee.hit_enemies m)
      /\ Melee.hit_enemies m' = Melee.hit_enemies m ∪ {[ enemy_id e ]}
      /\ exists damage kb_x kb_y frames,
           calls = [Melee.take_damage damage; Melee.apply_knockback kb_x kb_y;
                    Melee.apply_hitstun frames]).
Proof.
  unfold Melee.check_hit_enemy.
  destruct (negb (Melee.is_attacking m) || bool_decide (Melee.attack_phase m ≠ Melee.ACTIVE)).
  { intros [= <- <- <- <- <-]. repeat split; done. }
  case_bool_decide as Hin.
  { intros [= <- <- <- <- <-]. repeat split; done. }
  destruct (Melee.get_attack_hitbox m) as [hitbox|].
  2: { intros [= <- <- <- <- <-]. repeat split; done. }
  destruct (pygame.colliderect hitbox (enemy_rect e)).
  2: { intros [= <- <- <- <- <-]. repeat split; done. }
  destruct (Melee.calculate_damage _ _) as [[d crit]|]; simpl; [|discriminate].
  intros [= <- <- <- <- <-]. repeat split; try done. eauto.
Qed.

Lemma melee_inv_init p : melee_inv (Melee.init p).
Proof. repeat split; simpl; lia. Qed.

Lemma melee_inv_start heavy m m' :
  melee_inv m -> Melee.start_attack heavy m = Py.Ok m' -> melee_inv m'.
Proof.
  intros (_ & Hmax & Hc) Hs.
  destruct (melee_start_attack_ok _ _ _ Hs) as (Ha & _ & _ & _ & _ & Hcc & _ & Hm & _).
  split; [congruence|]. split; [congruence|]. rewrite Hcc.
  destruct (_ && _) eqn:E; [|lia].
  apply andb_prop in E as [_ E%Z.ltb_lt]. rewrite Hmax in E. lia.
Qed.

Lemma melee_inv_step o m m' :
  melee_inv m -> melee_step o m = Py.Ok m' -> melee_inv m'.
Proof.
  intros Hi. destruct o; simpl.
  - intros Hu. destruct (melee_update_ok _ _ Hu) as (Hp & Hm & Hc & _).
    destruct Hi as (Hph & Hmax & Hcc). split; [|split].
    + intros Hf. apply Hp; [done|]. destruct (Melee.is_attacking m); auto.
    + congruence.
    + destruct Hc as [-> | ->]; lia.
  - unfold Melee.try_attack. repeat case_match; simpl; try (intros [= <-]; exact Hi).
    destruct (Melee.start_attack false m) eqn:Hs; simpl; [|discriminate].
    intros [= <-]. by eapply melee_inv_start.
  - unfold Melee.release_heavy_attack. case_match; [|intros [= <-]; exact Hi].
    destruct (if _ <=? _ then _ else _) eqn:Hs; simpl; [|discriminate].
    intros [= <-].
    assert (melee_inv a) as Ha by (case_match; by eapply melee_inv_start).
    exact Ha.
  - by apply melee_inv_start.
  - intros [= <-]. destruct Hi as (_ & ? & ?). split; [done|]. split; done.
  - destruct (Melee.check_hit_enemy _ _ _ _ _) as [[[[[hit m1] calls] sh] fr]|] eqn:Hc;
      simpl; [|discriminate].
    intros [= <-]. destruct (melee_check_hit_ok _ _ _ _ _ _ _ _ _ _ Hc) as (E1 & E2 & E3 & E4 & _).
    unfold melee_inv. by rewrite E1, E2, E3, E4.
  - intros [= <-]. exact Hi.
  - intros [= <-]. exact Hi.
Qed.

Lemma melee_reachable_inv m : melee_reachable m -> melee_inv m.
Proof. induction 1; [apply melee_inv_init | by eapply melee_inv_step]. Qed.

Lemma melee_get_attack_hitbox_some m :
  is_Some (Melee.get_attack_hitbox m)
  <-> Melee.is_attacking m = true /\ Melee.attack_phase m = Melee.ACTIVE.
Proof.
  unfold Melee.get_attack_hitbox.
  destruct (Melee.is_attacking m); simpl.
  - case_bool_decide as Hp; split.
    + by intros [? ?].
    + by intros [_ ?].
    + intros _. split; [done|]. by destruct (decide (Melee.attack_phase m = Melee.ACTIVE)).
    + eauto.
  - split; [by intros [? ?] | by intros [? _]].
Qed.
End MeleeSteps.

Section RunLemmas.
Context `{PyMath}.

Lemma hk_run_reachable ops : forall c, hk_reachable c -> hk_reachable (hk_run ops c).
Proof.
  induction ops as [|o ops IH]; intros c Hc; [exact Hc|].
  apply (IH (hk_step o c)). by constructor.
Qed.

Lemma melee_run_reachable ops : forall m m',
  melee_reachable m -> melee_run ops m = Py.Ok m' -> melee_reachable m'.
Proof.
  induction ops as [|o ops IH]; intros m m' Hm; simpl.
  - by intros [= <-].
  - destruct (melee_step o m) as [m1|] eqn:E; simpl; [|discriminate].
    apply IH. by econstructor.
Qed.

Lemma hk_update_combo_reset c :
  HK.combo_timer c = 1 -> HK.combo_count (snd (HK.update c)) = 0.
Proof.
  intros Ht. unfold HK.update. rewrite Ht. simpl.
  set (c1 := HK.set_combo_count 0 _).
  assert (H0 : HK.combo_count c1 = 0 /\ HK.combo_timer c1 = 0) by done.
  destruct H0 as [Hc Hz]. clearbody c1.
  destruct (HK.is_attacking c); simpl; [|done].
  destruct (HK.attack_phase c) eqn:Hph; simpl; rewrite ?hk_enter_active_phase_eq;
    try done; try (by case_match).
  case_match; [|done]. cbn [snd]. unfold HK._end_attack. case_match; [|done].
  destruct (hk_start_attack_fields
                 (HK.set_next_attack_queued false
                    (HK.set_attack_timer (HK.attack_timer c + 1) c1)))
    as (_ & _ & _ & _ & -> & _).
  simpl. by rewrite Hz.
Qed.

End RunLemmas.

(** C1: [get_hitbox()] returns a rectangle exactly in the active phase,
    for every state of the directional combat; [get_attack_hitbox()] of
    the aimed combat does so in every state its methods can reach. *)
Theorem C1_hitbox_iff_active `{PyMath} :
  (forall c : HK.t, is_Some (HK.get_hitbox c) <-> HK.attack_phase c = HK.ACTIVE)
  /\ (forall m : Melee.t, melee_reachable m ->
        (is_Some (Melee.get_attack_hitbox m) <-> Melee.attack_phase m = Melee.ACTIVE)).
Proof.
  split; [apply hk_get_hitbox_some|].
  intros m Hm. rewrite melee_get_attack_hitbox_some.
  destruct (melee_reachable_inv m Hm) as (Hph & _).
  split; [by intros [_ ?]|]. intros Ha. split; [|done].
  destruct (Melee.is_attacking m); [done|]. rewrite Hph in Ha; done.
Qed.

Lemma C1_witness :
  let m := value (Melee.init a_melee_player)
             (melee_run (H:=libm.reference) (M_start_attack false :: replicate 4 M_update)
                        (Melee.init a_melee_player)) in
  melee_reachable (H:=libm.reference) m
  /\ Melee.attack_phase m = Melee.ACTIVE
  /\ is_Some (Melee.get_attack_hitbox (H:=libm.reference) m).
Proof.
  intros m.
  assert (Hr : melee_reachable (H:=libm.reference) m).
  { apply (melee_run_reachable (H:=libm.reference)
             (M_start_attack false :: replicate 4 M_update)
             (Melee.init a_melee_player)); [apply melee_reach_init|].
    vm_compute. reflexivity. }
  split; [exact Hr|]. split; [vm_compute; reflexivity|].
  apply (proj2 (C1_hitbox_iff_active (H:=libm.reference)) m Hr).
  vm_compute. reflexivity.
Defined.

(** C2: damage registers at most once per attack and target.  In the
    directional combat a target that is in the hit-set stays there for the
    rest of the attack (through hit checks, presses of the attack button,
    the player moving, and ticks, returning or raising), every later
    [check_hit] on it returns [False] and leaves the state as it is, and
    the loop of the hit pass over it makes no call and ends without an
    exception; a hit that registers puts its target in the hit-set; and no
    hit pass of the game makes a [take_damage] call at all (the hit that
    registers is followed by [get_damage], which raises; the pass catches
    it), so none is made twice.  In the aimed combat [check_hit_enemy] on
    a target of the hit-set returns [False], makes no call on the enemy
    and changes nothing, the hit-set is kept by every tick that leaves the
    attack running, and a registered hit joins it. *)
Theorem C2_damage_at_most_once `{PyMath} :
  (forall c c' e, hk_same_attack c c' -> enemy_id e ∈ HK.hit_enemies c ->
     HK.check_hit e c' = (false, c')
     /\ forall get_stat, Game.hit_enemies_loop get_stat [e] c' = ([], Py.Ok tt, c'))
  /\ (forall c e, fst (HK.check_hit e c) = true ->
        (enemy_id e ∉ HK.hit_enemies c)
        /\ enemy_id e ∈ HK.hit_enemies (snd (HK.check_hit e c)))
  /\ (forall get_stat query boss c,
        fst (fst (Game.player_hit_pass get_stat query boss c)) = []
        /\ NoDup (Game.target <$> fst (fst (Game.player_hit_pass get_stat query boss c))))
  /\ (forall roll e shake freeze m, enemy_id e ∈ Melee.hit_enemies m ->
        Melee.check_hit_enemy roll e shake freeze m
        = Py.Ok (false, m, [], shake, freeze))
  /\ (forall m m', Melee.update m = Py.Ok m' -> Melee.is_attacking m' = true ->
        Melee.hit_enemies m' = Melee.hit_enemies m)
  /\ (forall roll e shake freeze m m' calls shake' freeze',
        Melee.check_hit_enemy roll e shake freeze m
        = Py.Ok (true, m', calls, shake', freeze') ->
        (enemy_id e ∉ Melee.hit_enemies m) /\ enemy_id e ∈ Melee.hit_enemies m').
Proof.
  split; [|split; [|split; [|split; [|split]]]].
  - intros c c' e Hsa Hin.
    assert (Hc : HK.check_hit e c' = (false, c')).
    { apply hk_check_hit_already_hit. by apply (hk_same_attack_hit_enemies c c'). }
    split; [exact Hc|]. intros get_stat. cbn [Game.hit_enemies_loop]. cbv zeta.
    by rewrite Hc.
  - intros c e Hhit. destruct (hk_check_hit_registers e c Hhit) as (Hn & -> & _).
    split; [exact Hn | set_solver].
  - intros get_stat query boss c. rewrite hk_pass_events. split; [done | constructor].
  - intros. by apply melee_check_hit_already_hit.
  - intros m m' Hu. by destruct (melee_update_ok _ _ Hu) as (_ & _ & _ & _ & ?).
  - intros roll e shake freeze m m' calls shake' freeze' Hc.
    destruct (melee_check_hit_ok _ _ _ _ _ _ _ _ _ _ Hc) as (_ & _ & _ & _ & _ & Hh).
    destruct Hh as (Hn & -> & _); [done|]. split; [exact Hn | set_solver].
Qed.

Lemma C2_witness :
  let c := hk_run (H:=libm.reference)
             (HK_try_attack "light" false :: replicate 4 HK_update ++ [HK_check_hit an_enemy])
             (HK.init a_player) in
  let c' := hk_run (H:=libm.reference) [HK_update; HK_try_attack "light" false] c in
  let m := value (Melee.init a_melee_player)
             (melee_run (H:=libm.reference)
                (M_move_mouse (200, 230) :: M_start_attack false :: replicate 4 M_update
                 ++ [M_check_hit_enemy 0.5 an_enemy ScreenShake.init HitFreeze.init])
                (Melee.init a_melee_player)) in
  (enemy_id an_enemy ∈ HK.hit_enemies c
   /\ hk_same_attack (H:=libm.reference) c c'
   /\ HK.check_hit (H:=libm.reference) an_enemy c' = (false, c'))
  /\ (enemy_id an_enemy ∈ Melee.hit_enemies m
      /\ Melee.check_hit_enemy (H:=libm.reference) 0.5 an_enemy ScreenShake.init HitFreeze.init m
         = Py.Ok (false, m, [], ScreenShake.init, HitFreeze.init)).
Proof.
  intros c c' m.
  assert (Hin : enemy_id an_enemy ∈ HK.hit_enemies c).
  { vm_compute. reflexivity. }
  assert (Hsa : hk_same_attack (H:=libm.reference) c c').
  { apply (hk_sa_press (H:=libm.reference) c (snd (HK.update c))); [|vm_compute; reflexivity].
    apply (hk_sa_tick (H:=libm.reference) c c); [apply hk_sa_refl|].
    intros [Hr _]. vm_compute in Hr. discriminate. }
  assert (Hm : enemy_id an_enemy ∈ Melee.hit_enemies m).
  { vm_compute. reflexivity. }
  split.
  - split; [exact Hin|]. split; [exact Hsa|].
    exact (proj1 (proj1 (C2_damage_at_most_once (H:=libm.reference)) c c' an_enemy Hsa Hin)).
  - split; [exact Hm|].
    exact (proj1 (proj2 (proj2 (proj2 (C2_damage_at_most_once (H:=libm.reference)))))
             0.5%float an_enemy ScreenShake.init HitFreeze.init m Hm).
Defined.

Lemma melee_start_attack_defined `{PyMath} heavy m q n :
  Py.truediv 15 (Melee.attack_speed (Melee.player m)) = Py.Ok q ->
  Py.int q = Py.Ok n ->
  exists m', Melee.start_attack heavy m = Py.Ok m'.
Proof.
  intros Hq Hn. unfold Melee.start_attack. cbv zeta.
  match goal with
  | |- context [Py.truediv 15 (Melee.attack_speed (Melee.player ?s))] =>
      assert (Melee.player s = Melee.player m) as ->
        by (repeat case_match; reflexivity)
  end.
  rewrite Hq. cbn [Py.bind]. rewrite Hn. cbn [Py.bind]. eauto.
Qed.

(** C3, as the claim states it, fails.  In the aimed combat, idle and
    off cooldown, a heavy request returns [True] and the phase is still
    [NONE] (the attack is only being charged).  In the directional combat,
    in recovery, [try_attack] returns [False] and does change the state (it
    queues the attack); the state is the one a fresh combat is in after a
    light attack and twelve calls of [update], the fourth of which raised. *)
Lemma C3_counterexample :
  let m := Melee.init a_melee_player in
  let c := hk_run (H:=libm.reference)
             (HK_try_attack "light" false :: replicate 12 HK_update) (HK.init a_player) in
  (Melee.is_attacking m = false /\ Melee.attack_phase m = Melee.NONE
   /\ exists m', Melee.try_attack (H:=libm.reference) true m = Py.Ok (true, m')
                 /\ Melee.attack_phase m' = Melee.NONE)
  /\ (HK.attack_phase c = HK.RECOVERY
      /\ fst (HK.try_attack "light" false c) = false
      /\ HK.next_attack_queued c = false
      /\ HK.next_attack_queued (snd (HK.try_attack "light" false c)) = true).
Proof.
  split.
  - split; [reflexivity|]. split; [reflexivity|].
    eexists. split; [vm_compute; reflexivity | reflexivity].
  - vm_compute. repeat split; reflexivity.
Qed.

(** C3, amended: a start call in the windup, which is outside every
    window, returns [False] and changes nothing.  In the directional combat
    a call in the idle phase returns [True] and enters the windup with the
    timer at 0; a call in recovery returns [False] and only sets the queued
    flag; a call in the active phase returns [False] and changes nothing
    but, possibly, the queued flag.  In the aimed combat a call while the
    attack runs outside its cancel window is refused with nothing changed,
    and so is a call while the cooldown is positive; otherwise a heavy
    request returns [True] and only starts charging, and a light one
    returns [True] with the phase windup and the frame 0 (whenever the
    cooldown length [int(15 / attack_speed)] is defined). *)
Theorem C3_attack_start `{PyMath} :
  (forall a up c, hk_reachable c ->
     (HK.attack_phase c = HK.WINDUP -> HK.try_attack a up c = (false, c))
     /\ (HK.attack_phase c = HK.NONE ->
         fst (HK.try_attack a up c) = true
         /\ HK.attack_phase (snd (HK.try_attack a up c)) = HK.WINDUP
         /\ HK.attack_timer (snd (HK.try_attack a up c)) = 0)
     /\ (HK.attack_phase c = HK.RECOVERY ->
         HK.try_attack a up c = (false, HK.set_next_attack_queued true c))
     /\ (HK.attack_phase c = HK.ACTIVE ->
         HK.try_attack a up c = (false, c)
         \/ HK.try_attack a up c = (false, HK.set_next_attack_queued true c)))
  /\ (forall heavy m,
     (Melee.is_attacking m = true -> Melee.can_cancel m = false ->
      Melee.try_attack heavy m = Py.Ok (false, m))
     /\ ((0 <? Melee.attack_cooldown m)%float = true ->
         Melee.try_attack heavy m = Py.Ok (false, m))
     /\ (Melee.is_attacking m && negb (Melee.can_cancel m) = false ->
         (0 <? Melee.attack_cooldown m)%float = false ->
         Melee.try_attack true m
         = Py.Ok (true, m |> Melee.set_charging_heavy true |> Melee.set_heavy_charge_time 0)
         /\ (forall q n, Py.truediv 15 (Melee.attack_speed (Melee.player m)) = Py.Ok q ->
                         Py.int q = Py.Ok n ->
             exists m', Melee.try_attack false m = Py.Ok (true, m')
                        /\ Melee.attack_phase m' = Melee.WINDUP
                        /\ Melee.attack_frame m' = 0))).
Proof.
  split.
  - intros a up c Hr. destruct (hk_reachable_inv c Hr) as [[Hi1 Hi2] _].
    unfold HK.try_attack. split; [|split; [|split]].
    + intros Hph. rewrite Hph.
      destruct (HK.is_attacking c) eqn:Ha; [reflexivity|].
      rewrite (Hi1 eq_refl) in Hph. discriminate.
    + intros Hph. rewrite (Hi2 Hph). cbn [fst snd]. split; [reflexivity|]. split.
      * match goal with |- HK.attack_phase (HK._start_attack ?x) = _ =>
          exact (proj1 (proj2 (hk_start_attack_fields x))) end.
      * match goal with |- HK.attack_timer (HK._start_attack ?x) = _ =>
          exact (proj1 (proj2 (proj2 (hk_start_attack_fields x)))) end.
    + intros Hph. rewrite Hph.
      destruct (HK.is_attacking c) eqn:Ha; [reflexivity|].
      rewrite (Hi1 eq_refl) in Hph. discriminate.
    + intros Hph. rewrite Hph.
      destruct (HK.is_attacking c) eqn:Ha.
      * rewrite bool_decide_eq_true_2 by reflexivity. cbn [andb].
        destruct (PrimFloat.ltb _ _); [by right | by left].
      * rewrite (Hi1 eq_refl) in Hph. discriminate.
  - intros heavy m. unfold Melee.try_attack. split; [|split].
    + by intros -> ->.
    + intros ->. by destruct (_ && _).
    + intros Hc Hcd. rewrite Hc, Hcd. split; [done|]. intros q n Hq Hn.
      destruct (Melee.start_attack false m) as [m'|e] eqn:Hs; simpl.
      * exists m'. split; [done|].
        by destruct (melee_start_attack_ok _ _ _ Hs) as (_ & ? & ? & _).
      * destruct (melee_start_attack_defined false m q n Hq Hn) as [m' Hm'].
        congruence.
Qed.

Lemma C3_witness :
  let c := hk_run (H:=libm.reference)
             (HK_try_attack "light" false :: replicate 2 HK_update) (HK.init a_player) in
  hk_reachable (H:=libm.reference) c
  /\ HK.attack_phase c = HK.WINDUP
  /\ HK.try_attack "heavy" false c = (false, c).
Proof.
  intros c.
  assert (Hr : hk_reachable (H:=libm.reference) c).
  { apply (hk_run_reachable (H:=libm.reference)). apply hk_reach_init. }
  assert (Hp : HK.attack_phase c = HK.WINDUP) by (vm_compute; reflexivity).
  split; [exact Hr|]. split; [exact Hp|].
  exact (proj1 (proj1 (C3_attack_start (H:=libm.reference)) "heavy" false c Hr) Hp).
Defined.

(** C6, as the claim states it, fails for the aimed combat: the first
    start, with the combo timer at 0, sets the combo count to 1, and five
    attacks chained inside the combo window bring it to 5, the value of
    [max_combo]. *)
Lemma C6_counterexample :
  let m0 := Melee.init a_melee_player in
  let m1 := value m0 (Melee.start_attack (H:=libm.reference) false m0) in
  let m5 := value m0 (melee_run (H:=libm.reference)
                        (concat (replicate 5 (M_try_attack false :: replicate 15 M_update)))
                        m0) in
  Melee.combo_timer m0 = 0 /\ Melee.combo_count m1 = 1
  /\ Melee.max_combo m5 = 5 /\ Melee.combo_count m5 = 5.
Proof. vm_compute. repeat split; reflexivity. Qed.

(** C6, amended.  In the directional combat (chains of three) the combo
    count is between 0 and 2 in every reachable state, every start sets it
    to [min(combo_count + 1, 2)] when the combo timer is positive and to 0
    otherwise, and the tick on which the combo timer reaches 0 leaves it at
    0, whether that tick returns or raises.  In the aimed combat ([max_combo] 5) the count is between 0 and
    [max_combo] in every reachable state, every start sets it to
    [combo_count + 1] when the combo timer is positive and the count is
    below [max_combo], and to 1 otherwise, and the tick on which the combo
    timer reaches 0 resets it to 0. *)
Theorem C6_combo_count `{PyMath} :
  (forall c, hk_reachable c -> 0 <= HK.combo_count c <= 2)
  /\ (forall c, HK.combo_count (HK._start_attack c)
                = if 0 <? HK.combo_timer c then Z.min (HK.combo_count c + 1) 2 else 0)
  /\ (forall a up c, fst (HK.try_attack a up c) = true ->
        HK.combo_count (snd (HK.try_attack a up c))
        = if 0 <? HK.combo_timer c then Z.min (HK.combo_count c + 1) 2 else 0)
  /\ (forall c, HK.combo_timer c = 1 -> HK.combo_count (snd (HK.update c)) = 0)
  /\ (forall m, melee_reachable m ->
        Melee.max_combo m = 5 /\ 0 <= Melee.combo_count m <= Melee.max_combo m)
  /\ (forall heavy m m', Melee.start_attack heavy m = Py.Ok m' ->
        Melee.combo_count m'
        = if (0 <? Melee.combo_timer m) && (Melee.combo_count m <? Melee.max_combo m)
          then Melee.combo_count m + 1 else 1)
  /\ (forall m m', Melee.update m = Py.Ok m' -> Melee.combo_timer m = 1 ->
        Melee.combo_count m' = 0).
Proof.
  split; [intros c Hr; by destruct (hk_reachable_inv c Hr)|].
  split; [intros c; by destruct (hk_start_attack_fields c) as (_ & _ & _ & _ & ? & _)|].
  split.
  { intros a up c. unfold HK.try_attack.
    destruct (HK.is_attacking c); [by repeat case_match|]. intros _. cbn [snd].
    match goal with |- HK.combo_count (HK._start_attack ?x) = _ =>
      destruct (hk_start_attack_fields x) as (_ & _ & _ & _ & -> & _) end.
    destruct up; [reflexivity|]. destruct (String.eqb a "heavy"); reflexivity. }
  split; [apply hk_update_combo_reset|].
  split.
  { intros m Hr. destruct (melee_reachable_inv m Hr) as (_ & Hm & Hc). rewrite Hm. done. }
  split.
  { intros heavy m m' Hs. by destruct (melee_start_attack_ok _ _ _ Hs) as (_&_&_&_&_&?&_). }
  intros m m' Hu. by destruct (melee_update_ok _ _ Hu) as (_ & _ & _ & ? & _).
Qed.

Lemma C6_witness :
  let c := hk_run (H:=libm.reference)
             (HK_try_attack "light" false :: replicate 3 HK_update) (HK.init a_player) in
  hk_reachable (H:=libm.reference) c /\ 0 <= HK.combo_count c <= 2.
Proof.
  intros c.
  assert (Hr : hk_reachable (H:=libm.reference) c).
  { apply (hk_run_reachable (H:=libm.reference)). apply hk_reach_init. }
  split; [exact Hr|].
  exact (proj1 (C6_combo_count (H:=libm.reference)) c Hr).
Defined.

Lemma C7_witness :
  let c0 := snd (HK.try_attack "light" false (HK.init a_player)) in
  fst (HK.update (snd (hk_ticks 3 c0))) = Py.Raise Py.TypeError
  /\ HK.attack_phase (snd (HK.update (snd (hk_ticks 3 c0)))) = HK.ACTIVE.
Proof.
  intros c0.
  destruct (C7_light_attack_raises (HK.init a_player) eq_refl eq_refl)
    as (_ & _ & E1 & E2 & _).
  exact (conj E1 E2).
Defined.

(** ** Knockback *)

(** C8, as the claim states it, fails: for a heavy attack with base
    knockback 12 and combo count 3, aimed straight down, the knockback
    vector is (0, 16.144), of length 16.144; aimed to the right it is
    (25.92, -2), of length 25.997.  Both states are reached through the
    attack's own methods. *)
Lemma C8_counterexample :
  let chain := M_try_attack true :: M_try_attack false :: replicate 15 M_update
               ++ M_try_attack false :: replicate 15 M_update
               ++ [M_release_heavy_attack] in
  let m0 := Melee.init a_melee_player in
  let down := value m0 (melee_run (H:=libm.reference) (M_move_mouse (120, 400) :: chain) m0) in
  let right := value m0 (melee_run (H:=libm.reference) (M_move_mouse (300, 230) :: chain) m0) in
  (Melee.is_heavy_attack down = true /\ Melee.base_knockback down = 12
   /\ Melee.combo_count down = 3
   /\ (vector_magnitude (Melee.calculate_knockback down) <? 25.92 - 9.7)%float = true)
  /\ (Melee.is_heavy_attack right = true /\ Melee.base_knockback right = 12
      /\ Melee.combo_count right = 3
      /\ (25.92 + 0.07 <? vector_magnitude (Melee.calculate_knockback right))%float = true).
Proof. vm_compute. repeat split; reflexivity. Qed.

(** C8, amended: for a heavy attack with base knockback 12 and combo
    count 3 the knockback force is 12 x 1.8 x (1 + 2 x 0.1) = 25.92 up to
    1e-12, whatever the direction; the knockback vector is the attack
    direction scaled by that force, with the vertical component multiplied
    by 0.7 and 2 subtracted from it. *)
Theorem C8_knockback_force (m : Melee.t) :
  Melee.is_heavy_attack m = true ->
  Melee.base_knockback m = 12 ->
  Melee.combo_count m = 3 ->
  (Py.fabs (Melee.knockback_force m - 25.92) <? 1e-12)%float = true
  /\ Melee.calculate_knockback m
     = ((fst (Melee.attack_direction m) * Melee.knockback_force m)%float,
        (snd (Melee.attack_direction m) * Melee.knockback_force m * 0.7 - 2)%float).
Proof.
  intros Hh Hb Hc. split; [|reflexivity].
  unfold Melee.knockback_force. rewrite Hh, Hb, Hc. vm_compute. reflexivity.
Qed.

Lemma C8_witness :
  let m := Melee.init a_melee_player
             |> Melee.set_is_heavy_attack true |> Melee.set_combo_count 3 in
  (Py.fabs (Melee.knockback_force m - 25.92) <? 1e-12)%float = true.
Proof.
  intros m. exact (proj1 (C8_knockback_force m eq_refl eq_refl eq_refl)).
Defined.

(** ** Hit pause *)




(** ** BaseBoss *)





Lemma boss_take_damage_blocked damage kx ky b :
  Boss.is_invulnerable b = true \/ Boss.can_take_damage b = false ->
  Boss.take_damage damage kx ky b = Py.Ok b.
Proof.
  intros Hb. unfold Boss.take_damage.
  destruct Hb as [-> | ->]; [done|]. by rewrite orb_true_r.
Qed.









(** C10: while the boss is invulnerable, or its [can_take_damage] flag is
    off, [take_damage] returns with the boss exactly as it was (health,
    velocity, flash timer, phase index and state included), for every
    damage and knockback. *)
Theorem C10_no_damage_while_invulnerable (damage : Z) (knockback_x knockback_y : float)
    (b : Boss.t) :
  Boss.is_invulnerable b = true \/ Boss.can_take_damage b = false ->
  Boss.take_damage damage knockback_x knockback_y b = Py.Ok b.
Proof. apply boss_take_damage_blocked. Qed.

Lemma C10_witness :
  let b := Boss.set_is_invulnerable true a_boss in
  Boss.take_damage 350 5 (-3) b = Py.Ok b.
Proof. intros b. exact (C10_no_damage_while_invulnerable 350 5 (-3) b (or_introl eq_refl)). Defined.




(** C5 on the code: the Shadow Knight has 1000 health and phases at 1.0,
    0.66 and 0.33.  A hit of 350 leaves it at 650 (65%) with the phase
    index still 0, not invulnerable, in the state it was in, and no
    transition marked as played: [get_current_phase] answers the first
    phase, whose threshold 1.0 is at least any health fraction.  The same
    holds for every hit from 0 to 1000. *)
Theorem C5_no_phase_transition :
  Boss.health_threshold <$> Boss.phases a_boss = [1.0; 0.66; 0.33]%float
  /\ (exists b', Boss.take_damage 350 0 0 a_boss = Py.Ok b'
        /\ Boss.current_health b' = 650
        /\ Boss.get_current_phase b' = Py.Ok (Some 0%nat)
        /\ Boss.current_phase_index b' = 0%nat
        /\ Boss.is_invulnerable b' = false
        /\ Boss.state b' = Boss.state a_boss
        /\ Boss.transition_played <$> Boss.phases b' = [false; false; false])
  /\ forallb (fun d =>
        match Boss.take_damage (Z.of_nat d) 0 0 a_boss with
        | Py.Ok b' => (Boss.current_phase_index b' =? 0)%nat
                      && negb (Boss.is_invulnerable b')
                      && negb (bool_decide (Boss.state b' = Boss.PHASE_TRANSITION))
        | Py.Raise _ => false
        end) (seq 0 1001) = true.
Proof.
  split; [vm_compute; reflexivity|]. split; [|vm_compute; reflexivity].
  eexists. split; [vm_compute; reflexivity|]. vm_compute. repeat split; reflexivity.
Qed.
